(** * angela-blog: the request handlers of [main.py], embedded and verified

    The blog is a Flask application over three SQLAlchemy tables ([Users],
    [blog_posts], [comments]).  This development embeds the handlers of
    [main.py] as total functions on an explicit store and session, together
    with the library behaviour they rely on:

    - Python strings are [string]s; integers are [Z], of which SQLite binds
      and stores those of 64 signed bits.
    - [werkzeug.security]: the text format [method$salt$hash] of a stored
      password, its splitting and the parsing of the method are modelled in
      full; the PBKDF2 digest itself is a variable of the development.
    - SQLAlchemy over SQLite (the engine named at the [DATABASE_URL] line):
      tables are lists of rows in insertion order, primary keys are assigned
      as one more than the largest key, [UNIQUE] and [NOT NULL] are checked at
      commit, [String(n)] lengths are not, and declared foreign keys are
      checked only when the [foreign_keys] pragma is on (a variable).
    - Flask / Flask-Login: the session cookie holds the logged-in user's
      identifier, [current_user] is resolved through [load_user] on every
      request, a view function is called with the URL's variables as keyword
      arguments, and an exception leaves the store as it was.
    - [forms.py] is not part of the sources: whether a submitted form passes
      its validators is a variable per form class, and the data of a field is
      what the request's form holds under the field's name.

    The properties are stated for every value of these variables; the last
    part runs them on a sample configuration. *)

From Stdlib Require Import ZArith NArith List String Ascii Bool Lia.
From Stdlib Require Import DecimalString DecimalN Finite.
Import ListNotations.

Local Open Scope string_scope.
Local Open Scope Z_scope.

Set Implicit Arguments.

(* ================================================================= *)
(** ** Python strings *)

(** [s.count(c)] for a one-character [c]. *)
Fixpoint str_count (c : ascii) (s : string) : nat :=
  match s with
  | EmptyString => 0%nat
  | String a s' => if Ascii.eqb a c then S (str_count c s') else str_count c s'
  end.

(** [s.split(c)]: every occurrence of [c] separates two fields. *)
Fixpoint str_split (c : ascii) (s : string) : list string :=
  match s with
  | EmptyString => [EmptyString]
  | String a s' =>
      if Ascii.eqb a c then EmptyString :: str_split c s'
      else match str_split c s' with
           | [] => [String a EmptyString]
           | f :: fs => String a f :: fs
           end
  end.

(** [s.split(c, n)]: at most [n] splits, the rest of the string is the last
    field. *)
Fixpoint str_split_max (c : ascii) (n : nat) (s : string) : list string :=
  match n with
  | O => [s]
  | S n' =>
      match s with
      | EmptyString => [EmptyString]
      | String a s' =>
          if Ascii.eqb a c then EmptyString :: str_split_max c n' s'
          else match str_split_max c n s' with
               | [] => [String a EmptyString]
               | f :: fs => String a f :: fs
               end
      end
  end.

(** [s.startswith(p)] and [s[n:]]. *)
Definition startswith (p s : string) : bool := String.prefix p s.

Fixpoint str_drop (n : nat) (s : string) : string :=
  match n, s with
  | O, _ => s
  | S n', String _ s' => str_drop n' s'
  | S _, EmptyString => EmptyString
  end.

(** ["%d" % n] and [int(s)] on a string of decimal digits; [int] of anything
    else is a [ValueError], here [None]. *)
Definition str_of_int (n : N) : string := NilEmpty.string_of_uint (N.to_uint n).

Definition int_of_str (s : string) : option N :=
  match s with
  | EmptyString => None
  | _ => option_map N.of_uint (NilEmpty.uint_of_string s)
  end.

(* ================================================================= *)
(** ** The tables of [main.py] *)

Module User.
Record t := mk { id : Z; email : string; password : string; name : string }.
End User.

Module BlogPost.
Record t := mk {
  id : Z;
  author_id : option Z;
  title : string;
  subtitle : string;
  date : string;
  body : string;
  img_url : string }.
End BlogPost.

Module Comment.
Record t := mk {
  id : Z;
  author_id : option Z;
  text : string;
  post_id : option Z }.
End Comment.

(** The database: one list of rows per table, oldest row first. *)
Record DB := mkDB {
  Users : list User.t;
  blog_posts : list BlogPost.t;
  comments : list Comment.t }.

Definition empty_db : DB := mkDB [] [] [].

(** The key SQLite gives the next row of an [INTEGER PRIMARY KEY] column. *)
Definition next_id (ids : list Z) : Z := 1 + fold_right Z.max 0 ids.

(** [User.query.get(id)] and [User.query.filter_by(email=email).first()]. *)
Definition User_get (d : DB) (uid : Z) : option User.t :=
  find (fun u => User.id u =? uid) (Users d).

Definition User_by_email (d : DB) (email : string) : option User.t :=
  find (fun u => String.eqb (User.email u) email) (Users d).

(** [User.query.filter_by(id=author_id).first()]: a [NULL] key matches no row. *)
Definition User_by_id (d : DB) (author_id : option Z) : option User.t :=
  match author_id with
  | Some uid => User_get d uid
  | None => None
  end.

(* ================================================================= *)
(** ** Requests, responses and exceptions *)

(** The methods that reach a view of this application; Flask's router
    answers every other one itself. *)
Inductive Method := GET | POST | HEAD.

(** [request.form] and [request.args] are multi-dictionaries: indexing gives
    the first value of a key. *)
Record Request := mkRequest {
  method : Method;
  form : list (string * string);
  args : list (string * string) }.

Fixpoint multidict_get (key : string) (d : list (string * string)) : option string :=
  match d with
  | [] => None
  | (k, v) :: d' => if String.eqb k key then Some v else multidict_get key d'
  end.

Inductive Exn :=
| HTTPException (code : Z)           (* abort(code) *)
| BadRequestKeyError (key : string)  (* a missing key of request.form / request.args *)
| TypeError
| AttributeError
| ValueError
| IntegrityError                     (* a constraint refused at commit *)
| OverflowError                      (* an integer SQLite cannot bind *)
| UnmappedInstanceError.             (* db.session.delete(None) *)

(** SQLite's INTEGER holds 64 signed bits; the driver refuses to bind a
    Python integer outside that range with an [OverflowError]. *)
Definition sqlite_integer (k : Z) : bool := (- 2 ^ 63 <=? k) && (k <? 2 ^ 63).

Definition bindable (ref : option Z) : bool :=
  match ref with
  | Some k => sqlite_integer k
  | None => true
  end.

(** [BlogPost.query.get(id)]: the row with that key, [None] when no row has
    it, and an [OverflowError] when the key cannot be bound.  The keys of
    stored rows are SQLite integers, so a key that a row has is found. *)
Definition BlogPost_get (d : DB) (pid : Z) : Exn + option BlogPost.t :=
  match find (fun p => BlogPost.id p =? pid) (blog_posts d) with
  | Some post => inr (Some post)
  | None => if sqlite_integer pid then inr None else inl OverflowError
  end.

(** The values handed to templates and to [url_for]. *)
Inductive Value :=
| VNone
| VStr (s : string)
| VInt (n : Z)
| VBool (b : bool)
| VForm (class_name : string)
| VPost (p : BlogPost.t)
| VPosts (ps : list BlogPost.t)
| VUsers (us : list User.t)
| VComments (cs : list Comment.t).

Inductive Response :=
| render_template (template : string) (context : list (string * Value))
| redirect_url_for (endpoint : string) (values : list (string * Value))
| raise (e : Exn).

(** What a request finds besides the store: the random source read by
    [gen_salt] and the text of [date.today().strftime("%B %d, %Y")]. *)
Record Env := mkEnv { rng : nat -> nat; today : string }.

(** The store and the session cookie of the client that sends the request. *)
Record State := mkState { db : DB; session : option Z }.

Definition View : Type := Env -> Request -> State -> Response * State.

(** A view function as Flask calls it: with the variables of the URL rule as
    keyword arguments. *)
Definition Kwargs : Type := list (string * Z).
Definition PyView : Type := Kwargs -> View.

(** [def f(): ...] accepts no argument at all, [def f(post_id): ...] exactly
    the one it names; any other call is a [TypeError] raised before the body
    runs. *)
Definition def0 (body : View) : PyView :=
  fun kwargs env req st =>
    match kwargs with
    | [] => body env req st
    | _ :: _ => (raise TypeError, st)
    end.

Definition def1 (param : string) (body : Z -> View) : PyView :=
  fun kwargs env req st =>
    match kwargs with
    | [(k, v)] => if String.eqb k param then body v env req st else (raise TypeError, st)
    | _ => (raise TypeError, st)
    end.

(* ================================================================= *)
(** ** Flask-Login *)

Inductive CurrentUser :=
| Authenticated (u : User.t)
| AnonymousUser.

(** [load_user(user_id)]. *)
Definition load_user (d : DB) (uid : Z) : option User.t := User_get d uid.

(** [current_user]: the user the session names, reloaded on every request. *)
Definition current_user (st : State) : CurrentUser :=
  match session st with
  | Some uid =>
      match load_user (db st) uid with
      | Some u => Authenticated u
      | None => AnonymousUser
      end
  | None => AnonymousUser
  end.

Definition is_active (cu : CurrentUser) : bool :=
  match cu with Authenticated _ => true | AnonymousUser => false end.

Definition is_authenticated (cu : CurrentUser) : bool :=
  match cu with Authenticated _ => true | AnonymousUser => false end.

Definition login_user (u : User.t) (st : State) : State :=
  mkState (db st) (Some (User.id u)).

Definition logout_user (st : State) : State := mkState (db st) None.

(** [login_manager.unauthorized()] with no login view configured. *)
Definition unauthorized : Response := raise (HTTPException 401).

(** [@login_required]: the wrapper takes [*args, **kwargs] and passes them on. *)
Definition login_required (func : PyView) : PyView :=
  fun kwargs env req st =>
    if is_authenticated (current_user st) then func kwargs env req st
    else (unauthorized, st).

(* ================================================================= *)
(** ** A configuration to run the model on *)

(** Stand-ins for the library functions the development is parametric in: a
    digest that keeps salt and password apart, forms that always validate,
    and an edit form without an [author] field. *)
Definition sample_pbkdf2_hex (hash_name password salt : string) (iterations : N) : string :=
  salt ++ "/" ++ password.

Definition sample_hmac_hex (salt password method : string) : string := salt ++ "/" ++ password.

Definition sample_hash_hex (method password : string) : string := password.

Definition sample_iterations : N := 260000.

Definition always_valid (req : Request) : bool := true.

Definition no_author_field (req : Request) : Exn + option Z := inl AttributeError.

Definition sample_env : Env := mkEnv (fun k => (7 * k + 3)%nat) "November 03, 2026".

Definition no_state : State := mkState empty_db None.

Definition sign_up (name password email : string) : Request :=
  mkRequest POST [("name", name); ("password", password); ("email", email)] [].

Definition sign_in (email password : string) : Request :=
  mkRequest POST [("email", email); ("password", password)] [].

Definition say (text : string) : Request := mkRequest POST [("comment", text)] [].

Definition visit : Request := mkRequest GET [] [].

(* ================================================================= *)
(** ** werkzeug.security *)

Definition SALT_CHARS : string :=
  "abcdefghijklmnopqrstuvwxyzABCDEFGHIJKLMNOPQRSTUVWXYZ0123456789".

(** [secrets.choice(SALT_CHARS)] for a random number [r]. *)
Definition salt_choice (r : nat) : ascii :=
  match String.get (r mod 62) SALT_CHARS with
  | Some a => a
  | None => "a"%char
  end.

(** [gen_salt(length)]: [length] independent choices, read from the random
    source [rng]. *)
Definition gen_salt (rng : nat -> nat) (length : nat) : string :=
  string_of_list_ascii (map (fun k => salt_choice (rng k)) (seq 0 length)).

Section Blog.

(** [hashlib.pbkdf2_hmac(hash_name, password, salt, iterations).hex()]. *)
Variable pbkdf2_hex : string -> string -> string -> N -> string.
(** [hmac.new(salt, password, method).hexdigest()] and
    [hashlib.new(method, password).hexdigest()], the salted and unsalted
    plain digests. *)
Variable hmac_hex : string -> string -> string -> string.
Variable hash_hex : string -> string -> string.
Variable DEFAULT_PBKDF2_ITERATIONS : N.

(** [_hash_internal(method, salt, password)]: the digest and the method
    actually used; [None] where the library raises [ValueError]. *)
Definition _hash_internal (method salt password : string)
  : option (string * string) :=
  if String.eqb method "plain" then Some (password, method)
  else if startswith "pbkdf2:" method then
    if String.eqb salt "" then None
    else
      match str_split ":" (str_drop 7 method) with
      | [hash_name] =>
          let iterations := DEFAULT_PBKDF2_ITERATIONS in
          Some (pbkdf2_hex hash_name password salt iterations,
                "pbkdf2:" ++ hash_name ++ ":" ++ str_of_int iterations)
      | [hash_name; count] =>
          match (if String.eqb count "" then Some 0%N else int_of_str count) with
          | Some iterations =>
              Some (pbkdf2_hex hash_name password salt iterations,
                    "pbkdf2:" ++ hash_name ++ ":" ++ str_of_int iterations)
          | None => None
          end
      | _ => None
      end
  else if String.eqb salt "" then Some (hash_hex method password, method)
  else Some (hmac_hex salt password method, method).

(** [generate_password_hash(password, method, salt_length)]. *)
Definition generate_password_hash (rng : nat -> nat)
    (password method : string) (salt_length : nat) : option string :=
  let salt := if String.eqb method "plain" then "" else gen_salt rng salt_length in
  match _hash_internal method salt password with
  | Some (h, actual_method) => Some (actual_method ++ "$" ++ salt ++ "$" ++ h)
  | None => None
  end.

(** [check_password_hash(pwhash, password)]; [None] where [_hash_internal]
    raises. *)
Definition check_password_hash (pwhash password : string) : option bool :=
  if (str_count "$" pwhash <? 2)%nat then Some false
  else
    match str_split_max "$" 2 pwhash with
    | [method; salt; hashval] =>
        match _hash_internal method salt password with
        | Some (h, _) => Some (String.eqb h hashval)
        | None => None
        end
    | _ => Some false
    end.


(* ================================================================= *)
(** ** Writes to the store *)

(** Whether SQLite checks the declared foreign keys ([PRAGMA foreign_keys]);
    it does not unless the connection turns the pragma on. *)
Variable foreign_keys : bool.

Definition fk_ok (keys : list Z) (ref : option Z) : bool :=
  negb foreign_keys ||
  match ref with
  | None => true
  | Some k => existsb (Z.eqb k) keys
  end.

(** [db.session.add(User(name=.., password=.., email=..)); db.session.commit()]:
    the new row and the store with it, or the constraint the commit fails on. *)
Definition insert_user (name password email : string) (d : DB)
  : Exn + (User.t * DB) :=
  if existsb (fun u => String.eqb (User.email u) email) (Users d)
  then inl IntegrityError
  else
    let new_user := User.mk (next_id (map User.id (Users d))) email password name in
    inr (new_user, mkDB (Users d ++ [new_user]) (blog_posts d) (comments d)).

(** [db.session.add(BlogPost(..)); db.session.commit()]; a key that cannot be
    bound is an [OverflowError], a field whose form data is [None] violates
    [nullable=False]. *)
Definition insert_post (title subtitle body img_url : option string)
    (author_id : option Z) (date : string) (d : DB) : Exn + (BlogPost.t * DB) :=
  if negb (bindable author_id) then inl OverflowError else
  match title, subtitle, body, img_url with
  | Some title, Some subtitle, Some body, Some img_url =>
      if existsb (fun p => String.eqb (BlogPost.title p) title) (blog_posts d)
      then inl IntegrityError
      else if negb (fk_ok (map User.id (Users d)) author_id)
      then inl IntegrityError
      else
        let new_post :=
          BlogPost.mk (next_id (map BlogPost.id (blog_posts d)))
                      author_id title subtitle date body img_url in
        inr (new_post, mkDB (Users d) (blog_posts d ++ [new_post]) (comments d))
  | _, _, _, _ => inl IntegrityError
  end.

(** [db.session.add(Comment(author_id=.., text=.., post_id=..)); db.session.commit()]. *)
Definition insert_comment (author_id : option Z) (text : option string)
    (post_id : option Z) (d : DB) : Exn + (Comment.t * DB) :=
  if negb (bindable author_id && bindable post_id) then inl OverflowError else
  match text with
  | Some text =>
      if negb (fk_ok (map User.id (Users d)) author_id)
      then inl IntegrityError
      else if negb (fk_ok (map BlogPost.id (blog_posts d)) post_id)
      then inl IntegrityError
      else
        let new_comment :=
          Comment.mk (next_id (map Comment.id (comments d))) author_id text post_id in
        inr (new_comment, mkDB (Users d) (blog_posts d) (comments d ++ [new_comment]))
  | None => inl IntegrityError
  end.

(** [db.session.delete(post); db.session.commit()]: the [comments]
    relationship has no delete cascade, so the unit of work sets the
    [post_id] of the post's comments to [NULL] and then deletes the row. *)
Definition orphan (pid : Z) (c : Comment.t) : Comment.t :=
  match Comment.post_id c with
  | Some k =>
      if k =? pid
      then Comment.mk (Comment.id c) (Comment.author_id c) (Comment.text c) None
      else c
  | None => c
  end.

Definition delete_row (post : BlogPost.t) (d : DB) : DB :=
  mkDB (Users d)
       (filter (fun p => negb (BlogPost.id p =? BlogPost.id post)) (blog_posts d))
       (map (orphan (BlogPost.id post)) (comments d)).

(* ================================================================= *)
(** ** Forms *)

(** [forms.py] is not among the sources.  Whether a submitted form passes
    its validators (and the CSRF check) is a variable per form class; the
    data of a field is the value the request's form holds under the field's
    name, [None] when it holds none. *)
Variable CreatePostForm_validate : Request -> bool.
Variable CommentForm_validate : Request -> bool.

(** What [edit_form.author.data] gives once assigned to the [author]
    relationship of a post: the author's key (or [None]), or the exception
    the assignment raises. *)
Variable CreatePostForm_author : Request -> Exn + option Z.

Definition is_submitted (req : Request) : bool :=
  match method req with POST => true | GET | HEAD => false end.

Definition validate_on_submit (validate : Request -> bool) (req : Request) : bool :=
  is_submitted req && validate req.

Definition field_data (req : Request) (field : string) : option string :=
  multidict_get field (form req).

(** [request.form[key]] and [request.args[key]]. *)
Definition getitem (key : string) (d : list (string * string)) : Exn + string :=
  match multidict_get key d with
  | Some v => inr v
  | None => inl (BadRequestKeyError key)
  end.

(** An exception ends the request and leaves the state as it was. *)
Definition or_raise {A : Type} (st : State) (r : Exn + A)
    (k : A -> Response * State) : Response * State :=
  match r with
  | inl e => (raise e, st)
  | inr a => k a
  end.

Notation "'try' x <- r 'in' st ; k" := (or_raise st r (fun x => k))
  (at level 10, x pattern, r at level 100, st at level 0, k at level 200).

Definition logged_in (st : State) : string * Value :=
  ("logged_in", VBool (is_active (current_user st))).

(* ================================================================= *)
(** ** The views of [main.py] *)

(** [admin_only]: the wrapper is declared [def wrapper():] and calls
    [function()], both without arguments.  [current_user.id] of an anonymous
    user is an [AttributeError]. *)
Definition admin_only (function : PyView) : PyView :=
  def0 (fun env req st =>
    match current_user st with
    | Authenticated u =>
        if User.id u =? 1 then function [] env req st
        else (raise (HTTPException 403), st)
    | AnonymousUser => (raise AttributeError, st)
    end).

Definition get_all_posts : PyView :=
  def0 (fun env req st =>
    let posts := blog_posts (db st) in
    let users := Users (db st) in
    (render_template "index.html"
       [("all_posts", VPosts posts); logged_in st; ("all_users", VUsers users)], st)).

Definition register : PyView :=
  def0 (fun env req st =>
    match method req with
    | POST =>
        try name <- getitem "name" (form req) in st;
        try password <- getitem "password" (form req) in st;
        try email <- getitem "email" (form req) in st;
        match User_by_email (db st) email with
        | None =>
            match generate_password_hash (rng env) password "pbkdf2:sha256" 8 with
            | None => (raise ValueError, st)
            | Some encrypt_password =>
                try added <- insert_user name encrypt_password email (db st) in st;
                let st' := login_user (fst added) (mkState (snd added) (session st)) in
                (redirect_url_for "get_all_posts" [logged_in st'], st')
            end
        | Some _ =>
            let error := "You have already signed up with that email, log in instead!" in
            (render_template "login.html"
               [("error", VStr error); ("form", VForm "LoginForm"); logged_in st], st)
        end
    | GET =>
        (render_template "register.html" [("form", VForm "RegisterForm"); logged_in st], st)
    | HEAD => (raise TypeError, st)      (* neither branch: the view returns None *)
    end).

Definition login : PyView :=
  def0 (fun env req st =>
    match method req with
    | POST =>
        try email <- getitem "email" (form req) in st;
        try password <- getitem "password" (form req) in st;
        match User_by_email (db st) email with
        | None =>
            let error := "the Email you entered doesn't exist, please try again!" in
            (render_template "login.html"
               [("error", VStr error); ("form", VForm "LoginForm"); logged_in st], st)
        | Some user =>
            match check_password_hash (User.password user) password with
            | None => (raise ValueError, st)
            | Some true =>
                (redirect_url_for "get_all_posts" [], login_user user st)
            | Some false =>
                let error := "Password Incorrect, Please try again!" in
                (render_template "login.html"
                   [("error", VStr error); ("form", VForm "LoginForm"); logged_in st], st)
            end
        end
    | GET =>
        try error <- getitem "error" (args req) in st;
        (render_template "login.html"
           [("form", VForm "LoginForm"); ("error", VStr error); logged_in st], st)
    | HEAD => (raise TypeError, st)
    end).

Definition logout : PyView :=
  def0 (fun env req st =>
    let st' := logout_user st in
    (redirect_url_for "get_all_posts" [logged_in st'], st')).

Definition show_post : PyView :=
  def1 "post_id" (fun post_id env req st =>
    match method req with
    | GET =>
        let all_comments := comments (db st) in
        try requested_post <- BlogPost_get (db st) post_id in st;
        match requested_post with
        | None => (raise AttributeError, st)      (* requested_post is None *)
        | Some requested_post =>
            match User_by_id (db st) (BlogPost.author_id requested_post) with
            | None => (raise AttributeError, st)  (* .first() is None *)
            | Some author =>
                (render_template "post.html"
                   [("post", VPost requested_post); logged_in st;
                    ("author_name", VStr (User.name author));
                    ("form", VForm "CommentForm");
                    ("comments", VComments all_comments)], st)
            end
        end
    | POST =>
        match current_user st with
        | Authenticated u =>
            if validate_on_submit CommentForm_validate req then
              try added <- insert_comment (Some (User.id u))
                                          (field_data req "comment")
                                          (Some post_id) (db st) in st;
              (redirect_url_for "get_all_posts" [], mkState (snd added) (session st))
            else (raise TypeError, st)            (* falls through: returns None *)
        | AnonymousUser =>
            let error := "You need to logged first in in order to be able to add comments!" in
            (redirect_url_for "login" [("error", VStr error)], st)
        end
    | HEAD => (raise TypeError, st)
    end).

Definition about : PyView :=
  def0 (fun env req st => (render_template "about.html" [logged_in st], st)).

Definition contact : PyView :=
  def0 (fun env req st => (render_template "contact.html" [logged_in st], st)).

(** The function [add_new_post] as written, before its decorators. *)
Definition add_new_post_view : PyView :=
  def0 (fun env req st =>
    if validate_on_submit CreatePostForm_validate req then
      match current_user st with
      | Authenticated u =>
          try added <- insert_post (field_data req "title") (field_data req "subtitle")
                                   (field_data req "body") (field_data req "img_url")
                                   (Some (User.id u)) (today env) (db st) in st;
          (redirect_url_for "get_all_posts" [], mkState (snd added) (session st))
      | AnonymousUser => (raise AttributeError, st)   (* author is no mapped user *)
      end
    else
      (render_template "make-post.html" [("form", VForm "CreatePostForm"); logged_in st], st)).

Definition add_new_post : PyView := login_required (admin_only add_new_post_view).

(** [post.title = ..; ..; db.session.commit()] on the row [post]. *)
Definition update_post (post : BlogPost.t) (title subtitle img_url : option string)
    (author : option Z) (body : option string) (d : DB) : Exn + DB :=
  if negb (bindable author) then inl OverflowError else
  match title, subtitle, img_url, body with
  | Some title, Some subtitle, Some img_url, Some body =>
      if existsb (fun p => String.eqb (BlogPost.title p) title
                           && negb (BlogPost.id p =? BlogPost.id post)) (blog_posts d)
      then inl IntegrityError
      else if negb (fk_ok (map User.id (Users d)) author)
      then inl IntegrityError
      else
        let row := BlogPost.mk (BlogPost.id post) author title subtitle
                               (BlogPost.date post) body img_url in
        inr (mkDB (Users d)
                  (map (fun p => if BlogPost.id p =? BlogPost.id post then row else p)
                       (blog_posts d))
                  (comments d))
  | _, _, _, _ => inl IntegrityError
  end.

(** The function [edit_post] as written, before its decorators. *)
Definition edit_post_view : PyView :=
  def1 "post_id" (fun post_id env req st =>
    try post <- BlogPost_get (db st) post_id in st;
    match post with
    | None => (raise AttributeError, st)          (* post is None *)
    | Some post =>
        if validate_on_submit CreatePostForm_validate req then
          try author <- CreatePostForm_author req in st;
          try d' <- update_post post (field_data req "title") (field_data req "subtitle")
                                (field_data req "img_url") author
                                (field_data req "body") (db st) in st;
          let st' := mkState d' (session st) in
          (redirect_url_for "show_post"
             [("post_id", VInt (BlogPost.id post)); logged_in st'], st')
        else
          (render_template "make-post.html"
             [("form", VForm "CreatePostForm"); logged_in st], st)
    end).

Definition edit_post : PyView := login_required (admin_only edit_post_view).

(** The function [delete_post] as written, before its decorators. *)
Definition delete_post_view : PyView :=
  def1 "post_id" (fun post_id env req st =>
    try post_to_delete <- BlogPost_get (db st) post_id in st;
    match post_to_delete with
    | None => (raise UnmappedInstanceError, st)
    | Some post_to_delete =>
        let st' := mkState (delete_row post_to_delete (db st)) (session st) in
        (redirect_url_for "get_all_posts" [logged_in st'], st')
    end).

Definition delete_post : PyView := login_required (admin_only delete_post_view).

(* ================================================================= *)
(** ** Routing *)

Inductive Route :=
| index
| register_url
| login_url
| logout_url
| post_url (post_id : Z)
| about_url
| contact_url
| new_post_url
| edit_post_url (post_id : Z)
| delete_url (post_id : Z).

(** The [methods] of each [@app.route]; [GET] brings [HEAD] with it. *)
Definition allows (r : Route) (m : Method) : bool :=
  match r, m with
  | (register_url | login_url | post_url _ | new_post_url), _ => true
  | _, POST => false
  | _, (GET | HEAD) => true
  end.

Definition view_function (r : Route) : PyView :=
  match r with
  | index => get_all_posts
  | register_url => register
  | login_url => login
  | logout_url => logout
  | post_url _ => show_post
  | about_url => about
  | contact_url => contact
  | new_post_url => add_new_post
  | edit_post_url _ => edit_post
  | delete_url _ => delete_post
  end.

Definition view_args (r : Route) : Kwargs :=
  match r with
  | post_url post_id | edit_post_url post_id | delete_url post_id => [("post_id", post_id)]
  | _ => []
  end.

(** One request: the router refuses a method the rule does not list, and
    otherwise calls the view with the URL's variables. *)
Definition dispatch (r : Route) : View :=
  fun env req st =>
    if allows r (method req) then view_function r (view_args r) env req st
    else (raise (HTTPException 405), st).

(** The application serving many clients: one store, one session cookie per
    client. *)
Record World := mkWorld { store : DB; cookies : nat -> option Z }.

Record Op := mkOp { client : nat; route : Route; env_of : Env; request : Request }.

Definition step (w : World) (op : Op) : Response * World :=
  let '(resp, st') :=
    dispatch (route op) (env_of op) (request op) (mkState (store w) (cookies w (client op))) in
  (resp, mkWorld (db st')
                 (fun c => if Nat.eqb c (client op) then session st' else cookies w c)).

Definition run (w : World) (ops : list Op) : World :=
  fold_left (fun w op => snd (step w op)) ops w.

Definition initial : World := mkWorld empty_db (fun _ => None).

(** Referential integrity as the data model asks for it. *)
Definition names_user (d : DB) (ref : option Z) : bool :=
  match ref with
  | Some k => existsb (fun u => User.id u =? k) (Users d)
  | None => false
  end.

Definition names_post (d : DB) (ref : option Z) : bool :=
  match ref with
  | Some k => existsb (fun p => BlogPost.id p =? k) (blog_posts d)
  | None => false
  end.

Definition referential_integrity (d : DB) : bool :=
  forallb (fun c => names_user d (Comment.author_id c) && names_post d (Comment.post_id c))
          (comments d)
  && forallb (fun p => names_user d (BlogPost.author_id p)) (blog_posts d).

(* ================================================================= *)
(** ** The vocabulary of the properties *)

Definition comment_login_message : string :=
  "You need to logged first in in order to be able to add comments!".

Definition unknown_email_message : string :=
  "the Email you entered doesn't exist, please try again!".

Definition wrong_password_message : string :=
  "Password Incorrect, Please try again!".

Definition login_form_with (error : string) (st : State) : Response :=
  render_template "login.html"
    [("error", VStr error); ("form", VForm "LoginForm"); logged_in st].

(** The stored text for a password: method with iteration count, salt, digest. *)
Definition stored_hash (salt password : string) : string :=
  ("pbkdf2:sha256:" ++ str_of_int DEFAULT_PBKDF2_ITERATIONS) ++ "$" ++ salt ++ "$"
  ++ pbkdf2_hex "sha256" password salt DEFAULT_PBKDF2_ITERATIONS.

Definition already_signed_up_message : string :=
  "You have already signed up with that email, log in instead!".

(** The row that [register] adds for a new email. *)
Definition registered (env : Env) (st : State) (name password email : string) : User.t :=
  User.mk (next_id (map User.id (Users (db st)))) email
          (stored_hash (gen_salt (rng env) 8) password) name.

Definition after_register (env : Env) (st : State) (name password email : string) : State :=
  mkState (mkDB (Users (db st) ++ [registered env st name password email])
                (blog_posts (db st)) (comments (db st)))
          (Some (User.id (registered env st name password email))).

Definition on_post (post_id : Z) (c : Comment.t) : bool :=
  match Comment.post_id c with
  | Some k => k =? post_id
  | None => false
  end.

(** The post's comment count: the rows of [comments] whose [post_id] is the post's. *)
Definition comment_count (post_id : Z) (d : DB) : nat :=
  List.length (filter (on_post post_id) (comments d)).

(** A store with the administrator (user 1), logged in, and one post. *)
Definition admin_row : User.t := User.mk 1 "admin@x.com" "pbkdf2:sha256:1$saltsalt$00" "Admin".

Definition first_post : BlogPost.t :=
  BlogPost.mk 1 (Some 1) "Title" "Subtitle" "November 03, 2026" "Body" "http://x.com/i.png".

Definition admin_logged_in : State := mkState (mkDB [admin_row] [first_post] []) (Some 1).

(** The digest of a password under the salt and iteration count that
    [register] stores for [env]. *)
Definition digest_of (env : Env) (password : string) : string :=
  pbkdf2_hex "sha256" password (gen_salt (rng env) 8) DEFAULT_PBKDF2_ITERATIONS.

(** [hashlib.pbkdf2_hmac('sha256', ..).hex()] is a text of 64 hexadecimal
    digits. *)
Definition hex_digits : list ascii := list_ascii_of_string "0123456789abcdef".

Definition is_hex (s : string) : bool :=
  forallb (fun a => existsb (Ascii.eqb a) hex_digits) (list_ascii_of_string s).

Definition is_hex_digest (s : string) : bool :=
  (String.length s =? 64)%nat && is_hex s.

(** All texts of [n] hexadecimal digits. *)
Fixpoint hex_strings (n : nat) : list string :=
  match n with
  | O => [""]
  | S n' => flat_map (fun s => map (fun a => String a s) hex_digits) (hex_strings n')
  end.

(** The property as the specification words it: after a successful
    registration, a login with any other password is not accepted. *)
Definition every_other_password_is_refused : Prop :=
  forall (env env' : Env) (req req' : Request) (st : State)
         (name password email p : string) (cookie : option Z),
    method req = POST ->
    multidict_get "name" (form req) = Some name ->
    multidict_get "password" (form req) = Some password ->
    multidict_get "email" (form req) = Some email ->
    (forall u, In u (Users (db st)) -> User.email u <> email) ->
    method req' = POST ->
    multidict_get "email" (form req') = Some email ->
    multidict_get "password" (form req') = Some p ->
    p <> password ->
    fst (dispatch login_url env' req'
           (mkState (db (snd (dispatch register_url env req st))) cookie))
    <> redirect_url_for "get_all_posts" [].

(** The four effects a request has on the store: none, a new user, a new
    comment written by a stored user, a new post written by user 1. *)
Inductive effect (d : DB) : DB -> Prop :=
| effect_none : effect d d
| effect_user (u : User.t) :
    effect d (mkDB (Users d ++ [u]) (blog_posts d) (comments d))
| effect_comment (c : Comment.t) (u : User.t) (post_id : Z) :
    In u (Users d) ->
    Comment.author_id c = Some (User.id u) ->
    Comment.post_id c = Some post_id ->
    fk_ok (map BlogPost.id (blog_posts d)) (Some post_id) = true ->
    effect d (mkDB (Users d) (blog_posts d) (comments d ++ [c]))
| effect_post (p : BlogPost.t) (u : User.t) :
    In u (Users d) ->
    User.id u = 1 ->
    BlogPost.author_id p = Some (User.id u) ->
    effect d (mkDB (Users d) (blog_posts d ++ [p]) (comments d)).

(** The author references alone: every comment and every post names a
    stored user. *)
Definition authors_stored (d : DB) : bool :=
  forallb (fun c => names_user d (Comment.author_id c)) (comments d)
  && forallb (fun p => names_user d (BlogPost.author_id p)) (blog_posts d).

(** The keys SQLite has given to [n] rows inserted one after the other. *)
Definition keys_upto (n : nat) : list Z := map Z.of_nat (seq 1 n).

(** In each table the keys are 1, 2, .., in insertion order. *)
Definition keys_dense (d : DB) : Prop :=
  map User.id (Users d) = keys_upto (List.length (Users d)) /\
  map BlogPost.id (blog_posts d) = keys_upto (List.length (blog_posts d)) /\
  map Comment.id (comments d) = keys_upto (List.length (comments d)).

(** The two [unique=True] columns hold no value twice. *)
Definition columns_unique (d : DB) : Prop :=
  NoDup (map User.email (Users d)) /\ NoDup (map BlogPost.title (blog_posts d)).

(** The later store holds the rows of the earlier one, unchanged and in the
    same order, followed by new rows. *)
Definition extends (d d' : DB) : Prop :=
  exists us ps cs,
    Users d' = (Users d ++ us)%list /\
    blog_posts d' = (blog_posts d ++ ps)%list /\
    comments d' = (comments d ++ cs)%list.

(** What one request commits, row by row. *)
Inductive commit (d : DB) : DB -> Prop :=
| commit_nothing : commit d d
| commit_user (name password email : string) :
    (forall u, In u (Users d) -> User.email u <> email) ->
    commit d (mkDB (Users d ++ [User.mk (next_id (map User.id (Users d))) email password name])
                   (blog_posts d) (comments d))
| commit_comment (u : User.t) (text : string) (post_id : Z) :
    In u (Users d) ->
    commit d (mkDB (Users d) (blog_posts d)
                   (comments d ++ [Comment.mk (next_id (map Comment.id (comments d)))
                                              (Some (User.id u)) text (Some post_id)]))
| commit_post (u : User.t) (title subtitle date body img_url : string) :
    In u (Users d) ->
    User.id u = 1 ->
    (forall p, In p (blog_posts d) -> BlogPost.title p <> title) ->
    commit d (mkDB (Users d)
                   (blog_posts d ++ [BlogPost.mk (next_id (map BlogPost.id (blog_posts d)))
                                                 (Some (User.id u)) title subtitle date body
                                                 img_url])
                   (comments d)).

(** Every session cookie names a stored user. *)
Definition cookies_valid (w : World) : Prop :=
  forall c uid, cookies w c = Some uid ->
    exists u, In u (Users (store w)) /\ User.id u = uid.

(** The first of [keys] that the form does not hold. *)
Definition first_missing (keys : list string) (d : list (string * string)) : option string :=
  find (fun k => match multidict_get k d with Some _ => false | None => true end) keys.

(** The page that [show_post] renders for a post and its author. *)
Definition post_page (st : State) (post : BlogPost.t) (author : User.t) : Response :=
  render_template "post.html"
    [("post", VPost post); logged_in st; ("author_name", VStr (User.name author));
     ("form", VForm "CommentForm"); ("comments", VComments (comments (db st)))].

(** The row that [add_new_post] adds. *)
Definition posted (env : Env) (st : State) (u : User.t)
    (title subtitle body img_url : string) : BlogPost.t :=
  BlogPost.mk (next_id (map BlogPost.id (blog_posts (db st)))) (Some (User.id u))
              title subtitle (today env) body img_url.



(* ================================================================= *)
(** ** Properties of the views *)

Ltac unfold_route :=
  unfold dispatch, view_function, view_args, allows.

(** A user that [current_user] returns is a row of [Users] with the session's key. *)
Lemma current_user_inv (st : State) (u : User.t) :
  current_user st = Authenticated u ->
  session st = Some (User.id u) /\ In u (Users (db st)).
Proof.
  unfold current_user, load_user, User_get.
  destruct (session st) as [uid|]; [|discriminate].
  destruct (find _ _) as [v|] eqn:F; [|discriminate].
  intros [= ->]. apply find_some in F as [I E].
  apply Z.eqb_eq in E. now subst uid.
Qed.

(** The wrapper of [admin_only] refuses any keyword argument, whatever the
    function it wraps. *)
Lemma admin_only_keyword (function : PyView) (k : string) (v : Z)
    (env : Env) (req : Request) (st : State) :
  admin_only function [(k, v)] env req st = (raise TypeError, st).
Proof. reflexivity. Qed.

(** Behind [login_required], a wrapped view called with a keyword argument
    ends in [401] for an anonymous caller and in [TypeError] for any other. *)
Lemma guarded_keyword (function : PyView) (k : string) (v : Z)
    (env : Env) (req : Request) (st : State) :
  login_required (admin_only function) [(k, v)] env req st =
  (raise (if is_authenticated (current_user st) then TypeError else HTTPException 401), st).
Proof.
  unfold login_required, unauthorized.
  destruct (is_authenticated (current_user st)); [apply admin_only_keyword | reflexivity].
Qed.

(** C5: on [/edit-post/<id>] and [/delete/<id>] the request ends in a raised
    error and an unchanged store and session for every caller, a [TypeError]
    whenever the caller is logged in (the administrator included); the
    wrapper of [admin_only] raises it for any wrapped function, so no
    handler body runs. *)
Theorem edit_and_delete_always_raise (post_id : Z) (env : Env) (req : Request) (st : State) :
  (forall function : PyView,
      admin_only function [("post_id", post_id)] env req st = (raise TypeError, st)) /\
  (forall r, r = edit_post_url post_id \/ r = delete_url post_id ->
     exists e, dispatch r env req st = (raise e, st) /\
               (match method req with POST => e = HTTPException 405 | _ =>
                  e = if is_authenticated (current_user st) then TypeError
                      else HTTPException 401 end)).
Proof.
  split; [intros; apply admin_only_keyword|].
  intros r [-> | ->]; unfold_route; unfold edit_post, delete_post;
    destruct (method req); simpl; eauto using guarded_keyword.
Qed.

Lemma getitem_some (key : string) (d : list (string * string)) (v : string) :
  multidict_get key d = Some v -> getitem key d = inr v.
Proof. unfold getitem. now intros ->. Qed.

Lemma getitem_none (key : string) (d : list (string * string)) :
  multidict_get key d = None -> getitem key d = inl (BadRequestKeyError key).
Proof. unfold getitem. now intros ->. Qed.

(** C6: a [GET] of [/login] without an [error] parameter raises the missing-key
    error, no form is rendered and nothing changes; with the parameter the
    login form is rendered with that message. *)
Theorem login_get_reads_error_unconditionally (env : Env) (req : Request) (st : State) :
  method req = GET ->
  match multidict_get "error" (args req) with
  | None =>
      dispatch login_url env req st = (raise (BadRequestKeyError "error"), st)
  | Some message =>
      dispatch login_url env req st =
      (render_template "login.html"
         [("form", VForm "LoginForm"); ("error", VStr message); logged_in st], st)
  end.
Proof.
  intros M. unfold_route. unfold login, def0. rewrite M.
  destruct (multidict_get "error" (args req)) as [message|] eqn:A.
  - now rewrite (getitem_some _ _ A).
  - now rewrite (getitem_none _ _ A).
Qed.

(** C8: a comment posted by an anonymous client is answered by a redirect to
    the login page that carries the explanatory message, and store and
    session stay as they were, so no [Comment] row is created. *)
Theorem anonymous_comment_redirects_to_login
    (post_id : Z) (env : Env) (req : Request) (st : State) :
  method req = POST ->
  current_user st = AnonymousUser ->
  dispatch (post_url post_id) env req st =
  (redirect_url_for "login" [("error", VStr comment_login_message)], st).
Proof.
  intros M A. unfold_route. unfold show_post, def1. simpl. now rewrite M, A.
Qed.

(** C9: a login with an email no user has, and a login with a known email and
    a password that does not verify, both redisplay the login form, each with
    its own message; the two messages differ, and in both cases store and
    session are unchanged. *)
Theorem failed_login_causes_are_told_apart
    (env : Env) (req : Request) (st : State) (email password : string) :
  method req = POST ->
  multidict_get "email" (form req) = Some email ->
  multidict_get "password" (form req) = Some password ->
  (User_by_email (db st) email = None ->
     dispatch login_url env req st = (login_form_with unknown_email_message st, st)) /\
  (forall user,
     User_by_email (db st) email = Some user ->
     check_password_hash (User.password user) password = Some false ->
     dispatch login_url env req st = (login_form_with wrong_password_message st, st)) /\
  unknown_email_message <> wrong_password_message.
Proof.
  intros M E P. unfold_route. unfold login, def0. rewrite M.
  rewrite (getitem_some _ _ E), (getitem_some _ _ P). simpl.
  repeat split.
  - now intros ->.
  - intros user -> C. now rewrite C.
  - discriminate.
Qed.

(* ----------------------------------------------------------------- *)
(** *** Registration *)

Lemma gen_salt_8 (r : nat -> nat) :
  gen_salt r 8 =
  String (salt_choice (r 0%nat)) (String (salt_choice (r 1%nat))
  (String (salt_choice (r 2%nat)) (String (salt_choice (r 3%nat))
  (String (salt_choice (r 4%nat)) (String (salt_choice (r 5%nat))
  (String (salt_choice (r 6%nat)) (String (salt_choice (r 7%nat)) ""))))))).
Proof. reflexivity. Qed.

(** [generate_password_hash(password, method='pbkdf2:sha256', salt_length=8)]
    never raises and gives the stored text above. *)
Lemma generate_password_hash_pbkdf2 (r : nat -> nat) (password : string) :
  generate_password_hash r password "pbkdf2:sha256" 8 =
  Some (stored_hash (gen_salt r 8) password).
Proof.
  unfold generate_password_hash, stored_hash. rewrite gen_salt_8. reflexivity.
Qed.

Lemma find_none_iff {A : Type} (f : A -> bool) (l : list A) :
  find f l = None <-> existsb f l = false.
Proof.
  induction l as [|a l IH]; simpl; [tauto|].
  destruct (f a); simpl; [split; discriminate | exact IH].
Qed.

Lemma find_app_none {A : Type} (f : A -> bool) (l l' : list A) :
  find f l = None -> find f (l ++ l') = find f l'.
Proof.
  induction l as [|a l IH]; simpl; [reflexivity|].
  destruct (f a); [discriminate | exact IH].
Qed.

Lemma User_by_email_none (d : DB) (email : string) :
  User_by_email d email = None <-> (forall u, In u (Users d) -> User.email u <> email).
Proof.
  unfold User_by_email. split.
  - intros F u I E. apply (find_none _ _ F) in I.
    apply String.eqb_neq in I. contradiction.
  - intros H. destruct (find _ _) as [u|] eqn:F; [|reflexivity].
    apply find_some in F as [I E]. apply String.eqb_eq in E.
    now apply H in I.
Qed.

(** The key given to a new row is the key of no older row. *)
Lemma next_id_above (ids : list Z) (k : Z) : In k ids -> k < next_id ids.
Proof.
  unfold next_id. induction ids as [|a ids IH]; cbn [fold_right In]; [tauto|].
  intros [-> | I]; [lia | specialize (IH I); lia].
Qed.

Lemma next_id_fresh (ids : list Z) : ~ In (next_id ids) ids.
Proof. intros I. apply next_id_above in I. lia. Qed.

Lemma User_get_appended (d : DB) (u : User.t) :
  ~ In (User.id u) (map User.id (Users d)) ->
  User_get (mkDB (Users d ++ [u]) (blog_posts d) (comments d)) (User.id u) = Some u.
Proof.
  intros Fr. unfold User_get. simpl. rewrite find_app_none.
  - simpl. now rewrite Z.eqb_refl.
  - apply find_none_iff, not_true_is_false. intros X.
    apply existsb_exists in X as (v & I & E). apply Z.eqb_eq in E.
    apply Fr. rewrite <- E. now apply in_map.
Qed.

(** Registration with an email no user has: the row is appended and the new
    user is logged in. *)
Lemma register_fresh (env : Env) (req : Request) (st : State) (name password email : string) :
  method req = POST ->
  multidict_get "name" (form req) = Some name ->
  multidict_get "password" (form req) = Some password ->
  multidict_get "email" (form req) = Some email ->
  (forall u, In u (Users (db st)) -> User.email u <> email) ->
  dispatch register_url env req st =
  (redirect_url_for "get_all_posts" [("logged_in", VBool true)],
   after_register env st name password email).
Proof.
  intros M Hn Hp He Fresh. unfold_route. unfold register, def0. rewrite M.
  rewrite (getitem_some _ _ Hn), (getitem_some _ _ Hp), (getitem_some _ _ He).
  unfold or_raise. apply User_by_email_none in Fresh. rewrite Fresh.
  rewrite generate_password_hash_pbkdf2. unfold insert_user.
  apply find_none_iff in Fresh. unfold User_by_email in Fresh. rewrite Fresh.
  cbn [fst snd]. unfold logged_in, current_user, login_user, load_user, after_register.
  cbn [db session].
  change (User.mk (next_id (map User.id (Users (db st)))) email
                  (stored_hash (gen_salt (rng env) 8) password) name)
    with (registered env st name password email).
  rewrite (User_get_appended (db st) (registered env st name password email))
    by apply next_id_fresh.
  reflexivity.
Qed.

(** C2: registering with an email some user already has leaves store and
    session as they were and redisplays the login form with a message;
    registering with an email no user has appends exactly one [User] row,
    with that email and name, a key no other row has and the salted hash of
    the password, changes no other row, and logs the new user in. *)
Theorem register_rejects_duplicate_email
    (env : Env) (req : Request) (st : State) (name password email : string) :
  method req = POST ->
  multidict_get "name" (form req) = Some name ->
  multidict_get "password" (form req) = Some password ->
  multidict_get "email" (form req) = Some email ->
  ((exists u, In u (Users (db st)) /\ User.email u = email) ->
     dispatch register_url env req st = (login_form_with already_signed_up_message st, st)) /\
  ((forall u, In u (Users (db st)) -> User.email u <> email) ->
     exists new_user,
       dispatch register_url env req st =
       (redirect_url_for "get_all_posts" [("logged_in", VBool true)],
        mkState (mkDB (Users (db st) ++ [new_user]) (blog_posts (db st)) (comments (db st)))
                (Some (User.id new_user))) /\
       new_user = User.mk (next_id (map User.id (Users (db st)))) email
                          (stored_hash (gen_salt (rng env) 8) password) name /\
       ~ In (User.id new_user) (map User.id (Users (db st)))).
Proof.
  intros M Hn Hp He. split.
  - intros (u & I & E). unfold_route. unfold register, def0. rewrite M.
    rewrite (getitem_some _ _ Hn), (getitem_some _ _ Hp), (getitem_some _ _ He).
    unfold or_raise.
    destruct (User_by_email (db st) email) as [v|] eqn:F; [reflexivity|].
    apply (proj1 (User_by_email_none _ _) F) in I. contradiction.
  - intros Fresh. exists (registered env st name password email).
    split; [now apply register_fresh | split; [reflexivity | apply next_id_fresh]].
Qed.

(* ----------------------------------------------------------------- *)
(** *** Comments *)

Lemma insert_comment_inv (author_id : option Z) (text : option string)
    (post_id : option Z) (d : DB) (c : Comment.t) (d' : DB) :
  insert_comment author_id text post_id d = inr (c, d') ->
  d' = mkDB (Users d) (blog_posts d) (comments d ++ [c]) /\
  Comment.author_id c = author_id /\ Comment.post_id c = post_id /\
  text = Some (Comment.text c) /\
  Comment.id c = next_id (map Comment.id (comments d)) /\
  fk_ok (map User.id (Users d)) author_id = true /\
  fk_ok (map BlogPost.id (blog_posts d)) post_id = true.
Proof.
  unfold insert_comment.
  destruct (bindable author_id && bindable post_id); [|discriminate].
  destruct text as [text|]; [|discriminate].
  destruct (fk_ok (map User.id (Users d)) author_id); [|discriminate].
  destruct (fk_ok (map BlogPost.id (blog_posts d)) post_id); [|discriminate].
  simpl. intros [= <- <-]. repeat split.
Qed.

(** C7: when a logged-in user's comment submission on a post succeeds (the
    view answers with the redirect to the index), exactly one row is appended
    to [comments], its author is the current user and its post the requested
    one, the post's comment count grows by one, and every older comment,
    every post, every user and the session are unchanged. *)
Theorem comment_submission_adds_one_comment
    (post_id : Z) (env : Env) (req : Request) (st st' : State) (u : User.t) :
  method req = POST ->
  current_user st = Authenticated u ->
  dispatch (post_url post_id) env req st = (redirect_url_for "get_all_posts" [], st') ->
  exists c,
    comments (db st') = (comments (db st) ++ [c])%list /\
    Comment.author_id c = Some (User.id u) /\
    Comment.post_id c = Some post_id /\
    comment_count post_id (db st') = S (comment_count post_id (db st)) /\
    Users (db st') = Users (db st) /\
    blog_posts (db st') = blog_posts (db st) /\
    session st' = session st.
Proof.
  intros M A. unfold_route. unfold show_post, def1. simpl. rewrite M, A.
  destruct (validate_on_submit CommentForm_validate req); [|discriminate].
  destruct (insert_comment _ _ _ _) as [e|[c d']] eqn:I; simpl; [discriminate|].
  intros [= <-]. apply insert_comment_inv in I as (-> & Ha & Hp & _).
  exists c. simpl. repeat split; auto.
  unfold comment_count. simpl. rewrite filter_app, length_app. simpl.
  unfold on_post at 2. rewrite Hp, Z.eqb_refl. simpl. lia.
Qed.

(** A submission succeeds when the form validates, carries a comment text,
    the keys can be bound and the store accepts the row. *)
Lemma comment_submission_succeeds
    (post_id : Z) (env : Env) (req : Request) (st : State) (u : User.t) (text : string) :
  method req = POST ->
  current_user st = Authenticated u ->
  CommentForm_validate req = true ->
  field_data req "comment" = Some text ->
  sqlite_integer (User.id u) = true ->
  sqlite_integer post_id = true ->
  fk_ok (map BlogPost.id (blog_posts (db st))) (Some post_id) = true ->
  exists st', dispatch (post_url post_id) env req st =
              (redirect_url_for "get_all_posts" [], st').
Proof.
  intros M A V T Bu Bp F. unfold_route.
  unfold show_post, def1, validate_on_submit, is_submitted.
  simpl. rewrite M, A, V, T. simpl. unfold insert_comment, bindable. rewrite Bu, Bp.
  cbn [andb negb].
  assert (U : fk_ok (map User.id (Users (db st))) (Some (User.id u)) = true).
  { unfold fk_ok. apply orb_true_iff. right. apply existsb_exists.
    exists (User.id u). split; [|apply Z.eqb_refl].
    apply in_map. now apply current_user_inv in A. }
  rewrite U, F. simpl. eauto.
Qed.

(* ----------------------------------------------------------------- *)
(** *** Deleting a post *)

Lemma BlogPost_get_some (d : DB) (p : BlogPost.t) :
  In p (blog_posts d) ->
  exists q, BlogPost_get d (BlogPost.id p) = inr (Some q) /\
            In q (blog_posts d) /\ BlogPost.id q = BlogPost.id p.
Proof.
  unfold BlogPost_get. intros I.
  destruct (find _ _) as [q|] eqn:F.
  - exists q. split; [reflexivity|]. apply find_some in F as [Iq E].
    split; [exact Iq | now apply Z.eqb_eq].
  - apply (find_none _ _ F) in I. now rewrite Z.eqb_refl in I.
Qed.

Lemma sqlite_integer_nonneg (k : Z) : 0 <= k -> sqlite_integer k = (k <? 2 ^ 63).
Proof.
  intros P. unfold sqlite_integer.
  replace (- 2 ^ 63 <=? k) with true; [reflexivity|].
  symmetry. apply Z.leb_le. assert (0 < 2 ^ 63) by reflexivity. lia.
Qed.

(** A key no row has: [None] when it can be bound, [OverflowError] otherwise. *)
Lemma BlogPost_get_missing (d : DB) (post_id : Z) :
  (forall p, In p (blog_posts d) -> BlogPost.id p <> post_id) ->
  BlogPost_get d post_id = if sqlite_integer post_id then inr None else inl OverflowError.
Proof.
  intros Missing. unfold BlogPost_get.
  destruct (find _ _) as [p|] eqn:F; [|reflexivity].
  apply find_some in F as [I E]. apply Z.eqb_eq in E. now apply Missing in I.
Qed.

(** Whatever the key, a lookup only reads. *)
Lemma BlogPost_get_cases (d : DB) (post_id : Z) :
  BlogPost_get d post_id = inl OverflowError \/
  BlogPost_get d post_id = inr None \/
  exists p, BlogPost_get d post_id = inr (Some p) /\ In p (blog_posts d) /\
            BlogPost.id p = post_id.
Proof.
  unfold BlogPost_get. destruct (find _ _) as [p|] eqn:F.
  - right. right. exists p. apply find_some in F as [I E]. apply Z.eqb_eq in E. auto.
  - destruct (sqlite_integer post_id); auto.
Qed.

(* ----------------------------------------------------------------- *)
(** *** The administrator's gate *)

(** X4: on [/new-post] an anonymous caller is answered [401] by
    [login_required], a logged-in user other than user 1 is answered [403],
    and for user 1 the view runs; the first two leave store and session as
    they were. *)
Lemma new_post_gate (env : Env) (req : Request) (st : State) :
  dispatch new_post_url env req st =
  match current_user st with
  | AnonymousUser => (raise (HTTPException 401), st)
  | Authenticated u =>
      if User.id u =? 1 then add_new_post_view [] env req st
      else (raise (HTTPException 403), st)
  end.
Proof.
  unfold_route. unfold add_new_post, login_required, admin_only, def0, unauthorized.
  destruct (current_user st) as [u|]; reflexivity.
Qed.

(** C1: the administrator is not allowed to edit or delete.  Whenever user 1
    is logged in, a [GET] of [/delete/<id>] or [/edit-post/<id>] ends in a
    [TypeError] and changes nothing; on the store with the administrator and
    one post, the post is still stored after [/delete/1], although the
    function [delete_post] itself, called with the post's key, removes it. *)
Theorem administrator_cannot_edit_or_delete (env : Env) :
  (forall (post_id : Z) (req : Request) (st : State) (u : User.t),
      current_user st = Authenticated u -> User.id u = 1 -> method req = GET ->
      dispatch (delete_url post_id) env req st = (raise TypeError, st) /\
      dispatch (edit_post_url post_id) env req st = (raise TypeError, st)) /\
  current_user admin_logged_in = Authenticated admin_row /\
  dispatch (delete_url 1) env (mkRequest GET [] []) admin_logged_in
    = (raise TypeError, admin_logged_in) /\
  blog_posts (db (snd (delete_post_view [("post_id", 1)] env (mkRequest GET [] [])
                                        admin_logged_in))) = [].
Proof.
  split; [|repeat split].
  intros post_id req st u A _ M. unfold_route. rewrite M.
  unfold edit_post, delete_post. rewrite !guarded_keyword, A. split; reflexivity.
Qed.

(* ----------------------------------------------------------------- *)
(** *** The stored password text and its check *)

Lemma str_split_max_field (c : ascii) (n : nat) (s t : string) :
  str_count c s = 0%nat ->
  str_split_max c (S n) (s ++ String c t) = s :: str_split_max c n t.
Proof.
  induction s as [|a s IH]; simpl.
  - now rewrite Ascii.eqb_refl.
  - destruct (Ascii.eqb a c); [discriminate|]. intros Z0.
    change (match s ++ String c t with
            | "" => [""]
            | String a0 s' =>
                if Ascii.eqb a0 c then "" :: str_split_max c n s'
                else match str_split_max c (S n) s' with
                     | [] => [String a0 ""]
                     | f :: fs => String a0 f :: fs
                     end
            end) with (str_split_max c (S n) (s ++ String c t)).
    now rewrite (IH Z0).
Qed.

Lemma str_split_max_rest (c : ascii) (s : string) : str_split_max c 0 s = [s].
Proof. now destruct s. Qed.

Lemma str_split_field (c : ascii) (s t : string) :
  str_count c s = 0%nat ->
  str_split c (s ++ String c t) = s :: str_split c t.
Proof.
  induction s as [|a s IH]; simpl.
  - now rewrite Ascii.eqb_refl.
  - destruct (Ascii.eqb a c); [discriminate|]. intros Z0. now rewrite (IH Z0).
Qed.

Lemma str_split_whole (c : ascii) (s : string) :
  str_count c s = 0%nat -> str_split c s = [s].
Proof.
  induction s as [|a s IH]; simpl; [reflexivity|].
  destruct (Ascii.eqb a c); [discriminate|]. intros Z0. now rewrite (IH Z0).
Qed.

Lemma str_count_app (c : ascii) (s t : string) :
  str_count c (s ++ t) = (str_count c s + str_count c t)%nat.
Proof.
  induction s as [|a s IH]; simpl; [reflexivity|].
  destruct (Ascii.eqb a c); simpl; now rewrite IH.
Qed.

(** A number printed in decimal holds digits only. *)
Lemma str_count_digits (c : ascii) (d : Decimal.uint) :
  (forallb (fun a => negb (Ascii.eqb a c)) (list_ascii_of_string "0123456789") = true) ->
  str_count c (NilEmpty.string_of_uint d) = 0%nat.
Proof.
  simpl. rewrite !andb_true_iff, !negb_true_iff.
  intros (H0 & H1 & H2 & H3 & H4 & H5 & H6 & H7 & H8 & H9 & _).
  induction d; simpl; rewrite ?H0, ?H1, ?H2, ?H3, ?H4, ?H5, ?H6, ?H7, ?H8, ?H9; auto.
Qed.

(** [int(str(n)) = n], also through [int(args[0] or 0)]. *)
Lemma int_of_str_of_int (n : N) :
  (if String.eqb (str_of_int n) "" then Some 0%N else int_of_str (str_of_int n)) = Some n.
Proof.
  unfold int_of_str, str_of_int.
  pose proof (NilEmpty.usu (N.to_uint n)) as U.
  pose proof (DecimalN.Unsigned.of_to n) as O.
  destruct (NilEmpty.string_of_uint (N.to_uint n)) eqn:S; cbn [String.eqb].
  - simpl in U. injection U as U. rewrite <- U in O. simpl in O. now subst n.
  - rewrite U. simpl. now rewrite O.
Qed.

(** No character of a salt is the separator [$]. *)
Lemma salt_choice_not_dollar (r : nat) : Ascii.eqb (salt_choice r) "$" = false.
Proof.
  assert (A : forallb (fun k => negb (Ascii.eqb
                 (match String.get k SALT_CHARS with Some a => a | None => "a"%char end)
                 "$")) (seq 0 62) = true) by (vm_compute; reflexivity).
  rewrite forallb_forall in A. unfold salt_choice.
  apply negb_true_iff, A, in_seq.
  pose proof (Nat.mod_upper_bound r 62). lia.
Qed.

Lemma gen_salt_no_dollar (r : nat -> nat) (n : nat) : str_count "$" (gen_salt r n) = 0%nat.
Proof.
  unfold gen_salt. induction (seq 0 n) as [|k ks IH]; simpl; [reflexivity|].
  now rewrite salt_choice_not_dollar.
Qed.

(** [_hash_internal] on the method text that [register] stores. *)
Lemma hash_internal_stored (a : ascii) (s p : string) :
  _hash_internal ("pbkdf2:sha256:" ++ str_of_int DEFAULT_PBKDF2_ITERATIONS) (String a s) p =
  Some (pbkdf2_hex "sha256" p (String a s) DEFAULT_PBKDF2_ITERATIONS,
        "pbkdf2:sha256:" ++ str_of_int DEFAULT_PBKDF2_ITERATIONS).
Proof.
  unfold _hash_internal.
  change (String.eqb ("pbkdf2:sha256:" ++ str_of_int DEFAULT_PBKDF2_ITERATIONS) "plain")
    with false.
  change (startswith "pbkdf2:" ("pbkdf2:sha256:" ++ str_of_int DEFAULT_PBKDF2_ITERATIONS))
    with true.
  change (String.eqb (String a s) "") with false.
  change (str_drop 7 ("pbkdf2:sha256:" ++ str_of_int DEFAULT_PBKDF2_ITERATIONS))
    with ("sha256" ++ String ":" (str_of_int DEFAULT_PBKDF2_ITERATIONS)).
  cbv iota.
  rewrite str_split_field by reflexivity.
  rewrite str_split_whole by (apply str_count_digits; reflexivity).
  now rewrite int_of_str_of_int.
Qed.

(** [check_password_hash] on a text stored by [register]: the password is
    accepted exactly when its digest, under the stored salt and iteration
    count, is the stored digest. *)
Lemma check_stored_hash (r : nat -> nat) (password p : string) :
  check_password_hash (stored_hash (gen_salt r 8) password) p =
  Some (String.eqb (pbkdf2_hex "sha256" p (gen_salt r 8) DEFAULT_PBKDF2_ITERATIONS)
                   (pbkdf2_hex "sha256" password (gen_salt r 8) DEFAULT_PBKDF2_ITERATIONS)).
Proof.
  unfold check_password_hash, stored_hash.
  pose proof (gen_salt_no_dollar r 8) as Ds.
  pose proof (gen_salt_8 r) as G.
  destruct (gen_salt r 8) as [|a salt]; [discriminate|]. clear G.
  set (digest := pbkdf2_hex "sha256" password (String a salt) DEFAULT_PBKDF2_ITERATIONS).
  set (method := "pbkdf2:sha256:" ++ str_of_int DEFAULT_PBKDF2_ITERATIONS).
  assert (Dm : str_count "$" method = 0%nat).
  { unfold method. rewrite str_count_app. unfold str_of_int.
    rewrite str_count_digits; reflexivity. }
  assert (C : (str_count "$" (method ++ "$" ++ String a salt ++ "$" ++ digest) <? 2)%nat = false).
  { rewrite !str_count_app, Dm, Ds. simpl. apply Nat.ltb_ge. lia. }
  rewrite C.
  change (method ++ "$" ++ String a salt ++ "$" ++ digest)
    with (method ++ String "$" (String a salt ++ String "$" digest)).
  rewrite (str_split_max_field _ 1 _ _ Dm), (str_split_max_field _ 0 _ _ Ds).
  rewrite str_split_max_rest.
  unfold method. now rewrite hash_internal_stored.
Qed.

Lemma User_by_email_registered (env : Env) (st : State) (name password email : string) :
  (forall u, In u (Users (db st)) -> User.email u <> email) ->
  User_by_email (db (after_register env st name password email)) email =
  Some (registered env st name password email).
Proof.
  intros Fresh. apply User_by_email_none in Fresh.
  unfold User_by_email in *. simpl. rewrite (find_app_none _ _ _ Fresh).
  simpl. now rewrite String.eqb_refl.
Qed.

(** A login right after a registration, by any client. *)
Lemma login_after_register_if
    (env env' : Env) (req req' : Request) (st : State)
    (name password email p : string) (cookie : option Z) :
  method req = POST ->
  multidict_get "name" (form req) = Some name ->
  multidict_get "password" (form req) = Some password ->
  multidict_get "email" (form req) = Some email ->
  (forall u, In u (Users (db st)) -> User.email u <> email) ->
  method req' = POST ->
  multidict_get "email" (form req') = Some email ->
  multidict_get "password" (form req') = Some p ->
  snd (dispatch register_url env req st) = after_register env st name password email /\
  dispatch login_url env' req' (mkState (db (snd (dispatch register_url env req st))) cookie) =
    (if String.eqb (digest_of env p) (digest_of env password)
     then (redirect_url_for "get_all_posts" [],
           mkState (db (snd (dispatch register_url env req st)))
                   (session (snd (dispatch register_url env req st))))
     else (login_form_with wrong_password_message
             (mkState (db (snd (dispatch register_url env req st))) cookie),
           mkState (db (snd (dispatch register_url env req st))) cookie)).
Proof.
  intros M Hn Hp He Fresh M' He' Hp'.
  rewrite (register_fresh env _ _ M Hn Hp He Fresh). cbn [snd]. split; [reflexivity|].
  unfold_route. unfold login, def0. rewrite M'.
  rewrite (getitem_some _ _ He'), (getitem_some _ _ Hp'). unfold or_raise. cbn [db].
  rewrite (User_by_email_registered env st name password Fresh).
  unfold registered at 1. cbn [User.password].
  rewrite check_stored_hash. fold (digest_of env p) (digest_of env password).
  now destruct (String.eqb (digest_of env p) (digest_of env password)).
Qed.

(** C3: right after a successful [register(email, rawPassword, name)], a login
    with that email and a password [p], from any client, is accepted (redirect
    to the index, the session names the new user) exactly when the digest of
    [p] under the stored salt is the stored digest, and otherwise redisplays
    the login form with the wrong-password message and changes nothing; so
    the raw password itself is accepted, and every password with another
    digest is refused. *)
Theorem login_after_register
    (env env' : Env) (req req' : Request) (st : State)
    (name password email p : string) (cookie : option Z) :
  method req = POST ->
  multidict_get "name" (form req) = Some name ->
  multidict_get "password" (form req) = Some password ->
  multidict_get "email" (form req) = Some email ->
  (forall u, In u (Users (db st)) -> User.email u <> email) ->
  method req' = POST ->
  multidict_get "email" (form req') = Some email ->
  multidict_get "password" (form req') = Some p ->
  let st' := snd (dispatch register_url env req st) in
  let client := mkState (db st') cookie in
  let accepted := (redirect_url_for "get_all_posts" [],
                   mkState (db st') (Some (User.id (registered env st name password email)))) in
  let refused := (login_form_with wrong_password_message client, client) in
  dispatch login_url env' req' client =
    (if String.eqb (digest_of env p) (digest_of env password) then accepted else refused) /\
  (p = password -> dispatch login_url env' req' client = accepted) /\
  (digest_of env p <> digest_of env password ->
     dispatch login_url env' req' client = refused).
Proof.
  intros M Hn Hp He Fresh M' He' Hp' st' client accepted refused.
  destruct (login_after_register_if env env' req req' st cookie M Hn Hp He Fresh M' He' Hp')
    as [R L].
  fold st' in R, L. fold client in L.
  assert (L' : dispatch login_url env' req' client =
    (if String.eqb (digest_of env p) (digest_of env password) then accepted else refused)).
  { rewrite L. unfold accepted, refused. now rewrite R. }
  repeat split.
  - exact L'.
  - intros ->. now rewrite L', String.eqb_refl.
  - intros D. apply String.eqb_neq in D. now rewrite L', D.
Qed.

(* ----------------------------------------------------------------- *)
(** *** Digests are short, passwords are not *)

Lemma hex_strings_length (n : nat) : List.length (hex_strings n) = (16 ^ n)%nat.
Proof.
  induction n as [|n IH]; [reflexivity|].
  rewrite Nat.pow_succ_r'. cbn [hex_strings]. rewrite <- IH.
  generalize (hex_strings n) as l. clear IH.
  induction l as [|s l IHl]; [reflexivity|].
  cbn [flat_map]. rewrite length_app, IHl, length_map.
  change (List.length hex_digits) with 16%nat. cbn [List.length]. lia.
Qed.

Lemma hex_strings_complete (s : string) :
  is_hex s = true -> In s (hex_strings (String.length s)).
Proof.
  unfold is_hex. induction s as [|a s IH]; [now left|].
  cbn [list_ascii_of_string forallb String.length hex_strings].
  intros [Ha Hs]%andb_true_iff. apply in_flat_map. exists s. split; [auto|].
  apply existsb_exists in Ha as (b & Ib & E). apply Ascii.eqb_eq in E. subst b.
  apply in_map_iff. now exists a.
Qed.

Lemma hex_strings_NoDup (n : nat) : NoDup (hex_strings n).
Proof.
  induction n as [|n IH]; [repeat constructor; auto|].
  cbn [hex_strings]. induction IH as [|s l Ns Nl IHl]; [constructor|].
  cbn [flat_map]. apply NoDup_app.
  - apply Injective_map_NoDup.
    + intros a b E. now injection E.
    + unfold hex_digits. cbn. repeat constructor; cbn; intuition discriminate.
  - exact IHl.
  - intros x [a [<- _]]%in_map_iff [t [It [b [E _]]%in_map_iff]]%in_flat_map.
    injection E as _ ->. contradiction.
Qed.

(** No function from texts to texts of [n] hexadecimal digits is one-to-one. *)
Lemma short_values_collide (n : nat) (f : string -> string) :
  (forall p, String.length (f p) = n /\ is_hex (f p) = true) ->
  ~ (forall p q, f p = f q -> p = q).
Proof.
  intros H Inj.
  assert (L : (List.length (map f (hex_strings (S n))) <= List.length (hex_strings n))%nat).
  { apply NoDup_incl_length.
    - apply Injective_map_NoDup; [exact Inj | apply hex_strings_NoDup].
    - intros y [p [<- _]]%in_map_iff. destruct (H p) as [Hl Hh].
      rewrite <- Hl. now apply hex_strings_complete. }
  rewrite length_map, !hex_strings_length, Nat.pow_succ_r' in L.
  pose proof (Nat.pow_nonzero 16 n). lia.
Qed.

(** With digests of 64 hexadecimal digits, two different passwords share a
    digest, and after registering one of them the other logs in. *)
Lemma some_other_password_is_accepted :
  (forall p s, is_hex_digest (pbkdf2_hex "sha256" p s DEFAULT_PBKDF2_ITERATIONS) = true) ->
  ~ every_other_password_is_refused.
Proof.
  intros Hex Claim.
  set (env := mkEnv (fun _ => 0%nat) "").
  apply (@short_values_collide 64 (digest_of env)).
  - intros p. specialize (Hex p (gen_salt (rng env) 8)).
    apply andb_true_iff in Hex as [Hl Hh]. apply Nat.eqb_eq in Hl. now split.
  - intros p q E. destruct (String.eqb_spec q p) as [->|D]; [reflexivity|]. exfalso.
    set (reg := mkRequest POST [("name", "n"); ("password", p); ("email", "e")] []).
    set (log := mkRequest POST [("email", "e"); ("password", q)] []).
    apply (Claim env env reg log (mkState empty_db None) "n" p "e" q None);
      try reflexivity; try assumption; [intros u []|].
    destruct (@login_after_register_if env env reg log (mkState empty_db None)
                "n" p "e" q None) as [_ L]; try reflexivity; [intros u []|].
    rewrite L, E, String.eqb_refl. reflexivity.
Qed.

(* ----------------------------------------------------------------- *)
(** *** What one request can do to the store *)

Lemma insert_post_inv (title subtitle body img_url : option string)
    (author_id : option Z) (date : string) (d : DB) (p : BlogPost.t) (d' : DB) :
  insert_post title subtitle body img_url author_id date d = inr (p, d') ->
  d' = mkDB (Users d) (blog_posts d ++ [p]) (comments d) /\
  BlogPost.author_id p = author_id /\
  BlogPost.id p = next_id (map BlogPost.id (blog_posts d)).
Proof.
  unfold insert_post. destruct (bindable author_id); [|discriminate]. cbn [negb].
  destruct title, subtitle, body, img_url; try discriminate.
  destruct (existsb _ _); [discriminate|].
  destruct (fk_ok _ _); [|discriminate].
  simpl. intros [= <- <-]. repeat split.
Qed.

Lemma add_new_post_view_effect (env : Env) (req : Request) (st : State) (u : User.t) :
  current_user st = Authenticated u ->
  User.id u = 1 ->
  effect (db st) (db (snd (add_new_post_view [] env req st))).
Proof.
  intros A Adm. unfold add_new_post_view, def0.
  destruct (validate_on_submit CreatePostForm_validate req); [|constructor].
  rewrite A. destruct (insert_post _ _ _ _ _ _ _) as [e|[p d']] eqn:I; simpl; [constructor|].
  apply insert_post_inv in I as (-> & Ha & _).
  apply current_user_inv in A as [_ I]. now apply effect_post with u.
Qed.

Lemma show_post_effect (post_id : Z) (env : Env) (req : Request) (st : State) :
  effect (db st) (db (snd (show_post [("post_id", post_id)] env req st))).
Proof.
  unfold show_post, def1. simpl.
  destruct (method req); try constructor.
  - unfold or_raise. destruct (BlogPost_get (db st) post_id) as [e|[p|]]; try constructor.
    destruct (User_by_id (db st) (BlogPost.author_id p)); constructor.
  - destruct (current_user st) as [u|] eqn:A; [|constructor].
    destruct (validate_on_submit CommentForm_validate req); [|constructor].
    destruct (insert_comment _ _ _ _) as [e|[c d']] eqn:I; simpl; [constructor|].
    apply insert_comment_inv in I as (-> & Ha & Hp & _ & _ & _ & F).
    apply current_user_inv in A as [_ I]. now apply effect_comment with u post_id.
Qed.

Lemma register_effect (env : Env) (req : Request) (st : State) :
  effect (db st) (db (snd (register [] env req st))).
Proof.
  unfold register, def0, or_raise.
  destruct (method req); try constructor.
  destruct (getitem "name" (form req)); [constructor|].
  destruct (getitem "password" (form req)); [constructor|].
  destruct (getitem "email" (form req)) as [|email]; [constructor|].
  destruct (User_by_email (db st) email); [constructor|].
  destruct (generate_password_hash _ _ _ _); [|constructor].
  unfold insert_user. destruct (existsb _ _); constructor.
Qed.

Lemma login_effect (env : Env) (req : Request) (st : State) :
  db (snd (login [] env req st)) = db st.
Proof.
  unfold login, def0, or_raise.
  destruct (method req); try reflexivity.
  - destruct (getitem "error" (args req)); reflexivity.
  - destruct (getitem "email" (form req)) as [|email]; [reflexivity|].
    destruct (getitem "password" (form req)) as [|password]; [reflexivity|].
    destruct (User_by_email (db st) email) as [user|]; [|reflexivity].
    destruct (check_password_hash _ _) as [[|]|]; reflexivity.
Qed.

(** Every request has one of the four effects. *)
Lemma dispatch_effect (r : Route) (env : Env) (req : Request) (st : State) :
  effect (db st) (db (snd (dispatch r env req st))).
Proof.
  unfold dispatch. destruct (allows r (method req)); [|constructor].
  destruct r; unfold view_function, view_args.
  - constructor.
  - apply register_effect.
  - rewrite login_effect. constructor.
  - constructor.
  - apply show_post_effect.
  - constructor.
  - constructor.
  - unfold add_new_post, login_required, admin_only, def0.
    destruct (current_user st) as [u|] eqn:A; simpl; [|constructor].
    destruct (User.id u =? 1) eqn:E; [|constructor].
    apply Z.eqb_eq in E. now apply add_new_post_view_effect with u.
  - unfold edit_post. rewrite guarded_keyword. constructor.
  - unfold delete_post. rewrite guarded_keyword. constructor.
Qed.

(* ----------------------------------------------------------------- *)
(** *** Referential integrity along a run *)

Lemma names_user_in (d : DB) (u : User.t) :
  In u (Users d) -> names_user d (Some (User.id u)) = true.
Proof.
  intros I. apply existsb_exists. exists u. split; [assumption | apply Z.eqb_refl].
Qed.

Lemma names_user_mono (d d' : DB) (ref : option Z) :
  incl (Users d) (Users d') -> names_user d ref = true -> names_user d' ref = true.
Proof.
  intros Inc. destruct ref as [k|]; [|discriminate]. simpl.
  rewrite !existsb_exists. intros (u & I & E). exists u. auto.
Qed.

Lemma names_post_mono (d d' : DB) (ref : option Z) :
  incl (blog_posts d) (blog_posts d') -> names_post d ref = true -> names_post d' ref = true.
Proof.
  intros Inc. destruct ref as [k|]; [|discriminate]. simpl.
  rewrite !existsb_exists. intros (p & I & E). exists p. auto.
Qed.

Lemma fk_ok_names_post (d : DB) (post_id : Z) :
  foreign_keys = true ->
  fk_ok (map BlogPost.id (blog_posts d)) (Some post_id) = true ->
  names_post d (Some post_id) = true.
Proof.
  unfold fk_ok. intros ->. simpl. rewrite !existsb_exists.
  intros (k & [p [<- I]]%in_map_iff & E). exists p. split; [assumption|].
  apply Z.eqb_eq in E. subst. apply Z.eqb_refl.
Qed.

Lemma effect_users (d d' : DB) : effect d d' -> incl (Users d) (Users d').
Proof. intros []; simpl; auto using incl_refl, incl_appl. Qed.

Lemma effect_posts (d d' : DB) : effect d d' -> incl (blog_posts d) (blog_posts d').
Proof. intros []; simpl; auto using incl_refl, incl_appl. Qed.

Lemma effect_authors (d d' : DB) :
  effect d d' -> authors_stored d = true -> authors_stored d' = true.
Proof.
  intros E. pose proof (effect_users E) as U. unfold authors_stored.
  rewrite !andb_true_iff, !forallb_forall. intros [Hc Hp].
  assert (Old : forall ref, names_user d ref = true -> names_user d' ref = true)
    by (intros ref; now apply names_user_mono).
  destruct E as [|u|c u post_id I Ha _ _|p u I _ Ha]; cbn [comments blog_posts] in *.
  - auto.
  - auto.
  - split; [|auto]. intros x [Ix|[X|[]]]%in_app_iff; [auto|]. subst x.
    rewrite Ha. now apply names_user_in.
  - split; [auto|]. intros x [Ix|[X|[]]]%in_app_iff; [auto|]. subst x.
    rewrite Ha. now apply names_user_in.
Qed.

Lemma effect_integrity (d d' : DB) :
  foreign_keys = true ->
  effect d d' -> referential_integrity d = true -> referential_integrity d' = true.
Proof.
  intros FK E. pose proof (effect_users E) as U. pose proof (effect_posts E) as P.
  unfold referential_integrity.
  rewrite !andb_true_iff, !forallb_forall. intros [Hc Hp].
  assert (OldU : forall ref, names_user d ref = true -> names_user d' ref = true)
    by (intros ref; now apply names_user_mono).
  assert (OldP : forall ref, names_post d ref = true -> names_post d' ref = true)
    by (intros ref; now apply names_post_mono).
  assert (OldC : forall x, In x (comments d) ->
            names_user d' (Comment.author_id x) && names_post d' (Comment.post_id x) = true).
  { intros x Ix. specialize (Hc x Ix). apply andb_true_iff in Hc as [A B].
    apply andb_true_iff. auto. }
  destruct E as [|u|c u post_id I Ha Hpost F|p u I _ Ha]; cbn [comments blog_posts] in *.
  - auto.
  - auto.
  - split; [|auto]. intros x [Ix|[X|[]]]%in_app_iff; [auto|]. subst x.
    rewrite Ha, Hpost. apply andb_true_iff. split.
    + now apply names_user_in.
    + now apply fk_ok_names_post.
  - split; [auto|]. intros x [Ix|[X|[]]]%in_app_iff; [auto|]. subst x.
    rewrite Ha. now apply names_user_in.
Qed.

Lemma step_store (w : World) (op : Op) :
  effect (store w) (store (snd (step w op))).
Proof.
  unfold step.
  pose proof (dispatch_effect (route op) (env_of op) (request op)
                (mkState (store w) (cookies w (client op)))) as E.
  destruct (dispatch _ _ _ _) as [resp st']. exact E.
Qed.

(** X1: along every run, every comment and every post keeps naming a stored
    user as its author. *)
Theorem authors_stored_along_runs (ops : list Op) (w : World) :
  authors_stored (store w) = true -> authors_stored (store (run w ops)) = true.
Proof.
  revert w. induction ops as [|op ops IH]; intros w H; [exact H|].
  apply IH. eapply effect_authors; [apply step_store | exact H].
Qed.

(** X2: with the foreign keys checked by the engine, referential integrity
    holds along every run. *)
Theorem integrity_along_runs_with_foreign_keys (ops : list Op) (w : World) :
  foreign_keys = true ->
  referential_integrity (store w) = true ->
  referential_integrity (store (run w ops)) = true.
Proof.
  intros FK. revert w. induction ops as [|op ops IH]; intros w H; [exact H|].
  apply IH. eapply effect_integrity; [exact FK | apply step_store | exact H].
Qed.

Lemma register_posts (env : Env) (req : Request) (st : State) :
  blog_posts (db (snd (register [] env req st))) = blog_posts (db st).
Proof.
  unfold register, def0, or_raise.
  destruct (method req); try reflexivity.
  destruct (getitem "name" (form req)); [reflexivity|].
  destruct (getitem "password" (form req)); [reflexivity|].
  destruct (getitem "email" (form req)) as [|email]; [reflexivity|].
  destruct (User_by_email (db st) email); [reflexivity|].
  destruct (generate_password_hash _ _ _ _); [|reflexivity].
  unfold insert_user. destruct (existsb _ _); reflexivity.
Qed.

Lemma show_post_posts (post_id : Z) (env : Env) (req : Request) (st : State) :
  blog_posts (db (snd (show_post [("post_id", post_id)] env req st))) = blog_posts (db st).
Proof.
  unfold show_post, def1. simpl.
  destruct (method req); try reflexivity.
  - unfold or_raise. destruct (BlogPost_get (db st) post_id) as [e|[p|]]; try reflexivity.
    destruct (User_by_id (db st) (BlogPost.author_id p)); reflexivity.
  - destruct (current_user st) as [u|]; [|reflexivity].
    destruct (validate_on_submit CommentForm_validate req); [|reflexivity].
    destruct (insert_comment _ _ _ _) as [e|[c d']] eqn:I; simpl; [reflexivity|].
    now apply insert_comment_inv in I as (-> & _).
Qed.

(** X3: posts are never removed or changed by a request, and one is added
    only by a request of user 1 to [/new-post]. *)
Theorem posts_change_only_by_the_administrator
    (r : Route) (env : Env) (req : Request) (st : State) :
  blog_posts (db (snd (dispatch r env req st))) = blog_posts (db st) \/
  exists p u, blog_posts (db (snd (dispatch r env req st))) = (blog_posts (db st) ++ [p])%list
              /\ current_user st = Authenticated u /\ User.id u = 1 /\ r = new_post_url.
Proof.
  unfold dispatch. destruct (allows r (method req)); [|now left].
  destruct r; unfold view_function, view_args.
  - now left.
  - left. apply register_posts.
  - left. now rewrite login_effect.
  - now left.
  - left. apply show_post_posts.
  - now left.
  - now left.
  - unfold add_new_post, login_required, admin_only, def0.
    destruct (current_user st) as [u|] eqn:A; simpl; [|now left].
    destruct (User.id u =? 1) eqn:E; [|now left]. apply Z.eqb_eq in E.
    unfold add_new_post_view, def0.
    destruct (validate_on_submit CreatePostForm_validate req); [|now left].
    rewrite A. destruct (insert_post _ _ _ _ _ _ _) as [e|[p d']] eqn:I; simpl; [now left|].
    apply insert_post_inv in I as (-> & _). right. exists p, u. simpl. auto.
  - unfold edit_post. rewrite guarded_keyword. now left.
  - unfold delete_post. rewrite guarded_keyword. now left.
Qed.

(* ----------------------------------------------------------------- *)
(** *** What one request commits *)

Lemma existsb_false_forall {A : Type} (f : A -> bool) (l : list A) :
  existsb f l = false -> forall x, In x l -> f x = false.
Proof.
  intros E x I. destruct (f x) eqn:F; [|reflexivity].
  rewrite <- E. symmetry. apply existsb_exists. now exists x.
Qed.

Lemma insert_user_commit (name password email : string) (d : DB) (u : User.t) (d' : DB) :
  insert_user name password email d = inr (u, d') ->
  commit d d' /\ u = User.mk (next_id (map User.id (Users d))) email password name /\
  d' = mkDB (Users d ++ [u]) (blog_posts d) (comments d).
Proof.
  unfold insert_user. destruct (existsb _ _) eqn:E; [discriminate|].
  intros [= <- <-]. split; [|split; reflexivity].
  apply commit_user. intros v I. apply String.eqb_neq.
  exact (existsb_false_forall _ _ E v I).
Qed.

Lemma insert_post_commit (title subtitle body img_url : option string) (u : User.t)
    (date : string) (d : DB) (p : BlogPost.t) (d' : DB) :
  In u (Users d) -> User.id u = 1 ->
  insert_post title subtitle body img_url (Some (User.id u)) date d = inr (p, d') ->
  commit d d'.
Proof.
  intros I A. unfold insert_post. destruct (bindable _); [|discriminate]. cbn [negb].
  destruct title as [title|], subtitle as [subtitle|], body as [body|],
           img_url as [img_url|]; try discriminate.
  destruct (existsb _ _) eqn:E; [discriminate|].
  destruct (fk_ok _ _); [|discriminate].
  simpl. intros [= <- <-]. apply commit_post; try assumption.
  intros q Iq. apply String.eqb_neq. exact (existsb_false_forall _ _ E q Iq).
Qed.

Lemma insert_comment_commit (u : User.t) (text : option string) (post_id : Z)
    (d : DB) (c : Comment.t) (d' : DB) :
  In u (Users d) ->
  insert_comment (Some (User.id u)) text (Some post_id) d = inr (c, d') ->
  commit d d'.
Proof.
  intros I. unfold insert_comment. destruct (_ && _); [|discriminate]. cbn [negb].
  destruct text as [text|]; [|discriminate].
  destruct (fk_ok _ _); [|discriminate].
  destruct (fk_ok _ _); [|discriminate].
  simpl. intros [= <- <-]. now apply commit_comment.
Qed.

Lemma register_commit (env : Env) (req : Request) (st : State) :
  commit (db st) (db (snd (register [] env req st))).
Proof.
  unfold register, def0, or_raise.
  destruct (method req); try constructor.
  destruct (getitem "name" (form req)) as [|name]; [constructor|].
  destruct (getitem "password" (form req)) as [|password]; [constructor|].
  destruct (getitem "email" (form req)) as [|email]; [constructor|].
  destruct (User_by_email (db st) email); [constructor|].
  destruct (generate_password_hash _ _ _ _) as [h|]; [|constructor].
  destruct (insert_user name h email (db st)) as [e|[u d']] eqn:I; [constructor|].
  now apply insert_user_commit in I as [C _].
Qed.

Lemma show_post_commit (post_id : Z) (env : Env) (req : Request) (st : State) :
  commit (db st) (db (snd (show_post [("post_id", post_id)] env req st))).
Proof.
  unfold show_post, def1. simpl.
  destruct (method req); try constructor.
  - unfold or_raise. destruct (BlogPost_get (db st) post_id) as [e|[p|]]; try constructor.
    destruct (User_by_id (db st) (BlogPost.author_id p)); constructor.
  - destruct (current_user st) as [u|] eqn:A; [|constructor].
    destruct (validate_on_submit CommentForm_validate req); [|constructor].
    destruct (insert_comment _ _ _ _) as [e|[c d']] eqn:I; simpl; [constructor|].
    apply current_user_inv in A as [_ Iu]. now apply insert_comment_commit in I.
Qed.

Lemma add_new_post_commit (env : Env) (req : Request) (st : State) :
  commit (db st) (db (snd (add_new_post [] env req st))).
Proof.
  unfold add_new_post, login_required, admin_only, def0.
  destruct (current_user st) as [u|] eqn:A; simpl; [|constructor].
  destruct (User.id u =? 1) eqn:E; [|constructor]. apply Z.eqb_eq in E.
  unfold add_new_post_view, def0.
  destruct (validate_on_submit CreatePostForm_validate req); [|constructor].
  rewrite A. destruct (insert_post _ _ _ _ _ _ _) as [e|[p d']] eqn:I; simpl; [constructor|].
  apply current_user_inv in A as [_ Iu]. now apply insert_post_commit in I.
Qed.

(** Every request commits nothing or exactly one new row. *)
Lemma dispatch_commit (r : Route) (env : Env) (req : Request) (st : State) :
  commit (db st) (db (snd (dispatch r env req st))).
Proof.
  unfold dispatch. destruct (allows r (method req)); [|constructor].
  destruct r; unfold view_function, view_args.
  - constructor.
  - apply register_commit.
  - rewrite login_effect. constructor.
  - constructor.
  - apply show_post_commit.
  - constructor.
  - constructor.
  - apply add_new_post_commit.
  - unfold edit_post. rewrite guarded_keyword. constructor.
  - unfold delete_post. rewrite guarded_keyword. constructor.
Qed.

Lemma step_commit (w : World) (op : Op) : commit (store w) (store (snd (step w op))).
Proof.
  unfold step.
  pose proof (dispatch_commit (route op) (env_of op) (request op)
                (mkState (store w) (cookies w (client op)))) as C.
  destruct (dispatch _ _ _ _) as [resp st']. exact C.
Qed.

(* ----------------------------------------------------------------- *)
(** *** Keys, unique columns and growth along a run *)

Lemma keys_upto_S (n : nat) : keys_upto (S n) = (keys_upto n ++ [Z.of_nat (S n)])%list.
Proof. unfold keys_upto. now rewrite seq_S, map_app. Qed.

Lemma max_key_app (l : list Z) (x : Z) :
  0 <= x -> fold_right Z.max 0 (l ++ [x]) = Z.max x (fold_right Z.max 0 l).
Proof.
  intros P. induction l as [|a l IH]; cbn [app fold_right]; [lia|]. rewrite IH. lia.
Qed.

Lemma max_keys_upto (n : nat) : fold_right Z.max 0 (keys_upto n) = Z.of_nat n.
Proof.
  induction n as [|n IH]; [reflexivity|].
  rewrite keys_upto_S, max_key_app, IH by lia. lia.
Qed.

Lemma next_id_keys_upto (n : nat) : next_id (keys_upto n) = Z.of_nat (S n).
Proof. unfold next_id. rewrite max_keys_upto. lia. Qed.

(** Appending the row with the next key keeps a table's keys dense. *)
Lemma keys_dense_append {A : Type} (key : A -> Z) (rows : list A) (row : A) :
  map key rows = keys_upto (List.length rows) ->
  key row = next_id (map key rows) ->
  map key (rows ++ [row]) = keys_upto (List.length (rows ++ [row])).
Proof.
  intros D K. rewrite map_app, length_app, Nat.add_1_r, keys_upto_S. cbn [map List.length].
  now rewrite K, D, next_id_keys_upto.
Qed.

Lemma commit_keys_dense (d d' : DB) : commit d d' -> keys_dense d -> keys_dense d'.
Proof.
  intros C (Du & Dp & Dc). destruct C; unfold keys_dense; cbn [Users blog_posts comments].
  - auto.
  - split; [|auto]. now apply keys_dense_append.
  - split; [|split]; auto. now apply keys_dense_append.
  - split; [|split]; auto. now apply keys_dense_append.
Qed.

Lemma NoDup_append {A : Type} (l : list A) (x : A) :
  NoDup l -> ~ In x l -> NoDup (l ++ [x]).
Proof.
  intros N F. apply NoDup_app; [assumption | repeat constructor; auto |].
  intros y I [<-|[]]. contradiction.
Qed.

Lemma commit_columns_unique (d d' : DB) :
  commit d d' -> columns_unique d -> columns_unique d'.
Proof.
  intros C (Ne & Nt).
  destruct C as [|name password email F|u text post_id I|u title subtitle date body img_url I A F];
    unfold columns_unique; cbn [Users blog_posts comments]; auto.
  - split; [|assumption]. rewrite map_app. apply NoDup_append; [assumption|].
    cbn [map User.email]. intros [v [E Iv]]%in_map_iff. exact (F v Iv E).
  - split; [assumption|]. rewrite map_app. apply NoDup_append; [assumption|].
    cbn [map BlogPost.title]. intros [q [E Iq]]%in_map_iff. exact (F q Iq E).
Qed.

Lemma extends_refl (d : DB) : extends d d.
Proof. exists [], [], []. now rewrite !app_nil_r. Qed.

Lemma extends_trans (d1 d2 d3 : DB) : extends d1 d2 -> extends d2 d3 -> extends d1 d3.
Proof.
  intros (us & ps & cs & U & P & C) (us' & ps' & cs' & U' & P' & C').
  exists (us ++ us')%list, (ps ++ ps')%list, (cs ++ cs')%list.
  rewrite U', P', C', U, P, C, !app_assoc. auto.
Qed.

Lemma commit_extends (d d' : DB) : commit d d' -> extends d d'.
Proof.
  intros [].
  - apply extends_refl.
  - eexists _, [], []. cbn [Users blog_posts comments].
    repeat split; try reflexivity; now rewrite app_nil_r.
  - eexists [], [], _. cbn [Users blog_posts comments].
    repeat split; try reflexivity; now rewrite app_nil_r.
  - eexists [], _, []. cbn [Users blog_posts comments].
    repeat split; try reflexivity; now rewrite app_nil_r.
Qed.

(** X5: along every run the keys of each table stay 1, 2, .., in insertion
    order: a new row gets the next key and no key is given twice. *)
Theorem keys_dense_along_runs (ops : list Op) (w : World) :
  keys_dense (store w) -> keys_dense (store (run w ops)).
Proof.
  revert w. induction ops as [|op ops IH]; intros w H; [exact H|].
  apply IH. eapply commit_keys_dense; [apply step_commit | exact H].
Qed.

(** X6: along every run no two users share an email and no two posts share
    a title. *)
Theorem columns_unique_along_runs (ops : list Op) (w : World) :
  columns_unique (store w) -> columns_unique (store (run w ops)).
Proof.
  revert w. induction ops as [|op ops IH]; intros w H; [exact H|].
  apply IH. eapply commit_columns_unique; [apply step_commit | exact H].
Qed.

(** X7: no run removes, changes or reorders a stored row: the store after
    the run is the store before it with rows appended. *)
Theorem store_only_grows (ops : list Op) (w : World) :
  extends (store w) (store (run w ops)).
Proof.
  revert w. induction ops as [|op ops IH]; intros w; [apply extends_refl|].
  eapply extends_trans; [|apply IH]. apply commit_extends, step_commit.
Qed.

(* ----------------------------------------------------------------- *)
(** *** Sessions *)

Lemma extends_users (d d' : DB) (u : User.t) :
  extends d d' -> In u (Users d) -> In u (Users d').
Proof. intros (us & ps & cs & -> & _) I. apply in_or_app. now left. Qed.

(** After a request the session is what it was, or empty, or names a user
    of the store the request leaves. *)
Lemma dispatch_session (r : Route) (env : Env) (req : Request) (st : State) :
  session (snd (dispatch r env req st)) = session st \/
  session (snd (dispatch r env req st)) = None \/
  exists u, In u (Users (db (snd (dispatch r env req st)))) /\
            session (snd (dispatch r env req st)) = Some (User.id u).
Proof.
  unfold dispatch. destruct (allows r (method req)); [|now left].
  destruct r; unfold view_function, view_args; try (now left).
  - unfold register, def0, or_raise.
    destruct (method req); try (now left).
    destruct (getitem "name" (form req)) as [|name]; [now left|].
    destruct (getitem "password" (form req)) as [|password]; [now left|].
    destruct (getitem "email" (form req)) as [|email]; [now left|].
    destruct (User_by_email (db st) email); [now left|].
    destruct (generate_password_hash _ _ _ _) as [h|]; [|now left].
    destruct (insert_user name h email (db st)) as [e|[u d']] eqn:I; [now left|].
    apply insert_user_commit in I as (_ & _ & ->). right. right. exists u.
    cbn. split; [|reflexivity]. apply in_or_app. right. now left.
  - unfold login, def0, or_raise.
    destruct (method req); try (now left).
    + destruct (getitem "error" (args req)); now left.
    + destruct (getitem "email" (form req)) as [|email]; [now left|].
      destruct (getitem "password" (form req)) as [|password]; [now left|].
      destruct (User_by_email (db st) email) as [user|] eqn:F; [|now left].
      destruct (check_password_hash _ _) as [[|]|]; try (now left).
      right. right. exists user. cbn. split; [|reflexivity].
      now apply find_some in F as [I _].
  - right. now left.
  - unfold show_post, def1. simpl.
    destruct (method req); try (now left).
    + unfold or_raise. destruct (BlogPost_get (db st) post_id) as [e|[p|]]; try (now left).
      destruct (User_by_id (db st) (BlogPost.author_id p)); now left.
    + destruct (current_user st) as [u|]; [|now left].
      destruct (validate_on_submit CommentForm_validate req); [|now left].
      destruct (insert_comment _ _ _ _) as [e|[c d']]; now left.
  - unfold add_new_post, login_required, admin_only, def0.
    destruct (current_user st) as [u|] eqn:A; simpl; [|now left].
    destruct (User.id u =? 1); [|now left].
    unfold add_new_post_view, def0.
    destruct (validate_on_submit CreatePostForm_validate req); [|now left].
    rewrite A. destruct (insert_post _ _ _ _ _ _ _) as [e|[p d']]; now left.
  - unfold edit_post. rewrite guarded_keyword. now left.
  - unfold delete_post. rewrite guarded_keyword. now left.
Qed.

Lemma step_cookies_valid (w : World) (op : Op) :
  cookies_valid w -> cookies_valid (snd (step w op)).
Proof.
  intros V c uid. unfold step.
  pose proof (dispatch_commit (route op) (env_of op) (request op)
                (mkState (store w) (cookies w (client op)))) as C.
  pose proof (dispatch_session (route op) (env_of op) (request op)
                (mkState (store w) (cookies w (client op)))) as S.
  destruct (dispatch _ _ _ _) as [resp st']. cbn [snd store cookies db session] in *.
  apply commit_extends in C.
  assert (Old : forall k, cookies w k = Some uid ->
                  exists u, In u (Users (db st')) /\ User.id u = uid).
  { intros k K. destruct (V k uid K) as (u & I & E). exists u. split; [|exact E].
    eapply extends_users; eassumption. }
  destruct (Nat.eqb c (client op)); [|apply Old].
  destruct S as [S | [S | (u & I & S)]]; rewrite S.
  - apply Old.
  - discriminate.
  - intros [= <-]. now exists u.
Qed.

(** X8: along every run every session cookie names a stored user, so a
    client that holds one is resolved by [load_user] and never treated as
    anonymous. *)
Theorem cookies_valid_along_runs (ops : list Op) (w : World) :
  cookies_valid w ->
  cookies_valid (run w ops) /\
  forall c uid, cookies (run w ops) c = Some uid ->
    is_authenticated (current_user (mkState (store (run w ops)) (Some uid))) = true.
Proof.
  intros V.
  assert (R : cookies_valid (run w ops)).
  { revert w V. induction ops as [|op ops IH]; intros w V; [exact V|].
    apply IH. now apply step_cookies_valid. }
  split; [exact R|]. intros c uid K. destruct (R c uid K) as (u & I & E).
  unfold current_user, load_user, User_get. cbn [session db].
  destruct (find _ _) as [v|] eqn:F; [reflexivity|].
  apply (find_none _ _ F) in I. apply Z.eqb_neq in I. contradiction.
Qed.

(** X9: a request that is not a [POST] leaves the store as it was, on every
    route and for every caller. *)
Theorem only_post_requests_write (r : Route) (env : Env) (req : Request) (st : State) :
  method req <> POST -> db (snd (dispatch r env req st)) = db st.
Proof.
  intros M. unfold dispatch. destruct (allows r (method req)); [|reflexivity].
  destruct r; unfold view_function, view_args; try reflexivity.
  - unfold register, def0. destruct (method req); try reflexivity. contradiction.
  - apply login_effect.
  - unfold show_post, def1. simpl. destruct (method req); try reflexivity; [|contradiction].
    unfold or_raise. destruct (BlogPost_get (db st) post_id) as [e|[p|]]; try reflexivity.
    destruct (User_by_id (db st) (BlogPost.author_id p)); reflexivity.
  - unfold add_new_post, login_required, admin_only, def0.
    destruct (current_user st) as [u|]; simpl; [|reflexivity].
    destruct (User.id u =? 1); [|reflexivity].
    unfold add_new_post_view, def0, validate_on_submit, is_submitted.
    destruct (method req); try reflexivity. contradiction.
  - unfold edit_post. now rewrite guarded_keyword.
  - unfold delete_post. now rewrite guarded_keyword.
Qed.

(** X10: signing out.  A [GET] of [/logout] redirects to the index with
    [logged_in] false, leaves the store alone and empties the session: the
    client is anonymous afterwards, [/new-post] answers it [401] and a
    comment it posts is redirected to the login page. *)
Theorem logout_makes_the_client_anonymous (env : Env) (req : Request) (st : State) :
  method req <> POST ->
  let st' := logout_user st in
  dispatch logout_url env req st =
    (redirect_url_for "get_all_posts" [("logged_in", VBool false)], st') /\
  db st' = db st /\
  current_user st' = AnonymousUser /\
  (forall env' req',
      dispatch new_post_url env' req' st' = (raise (HTTPException 401), st')) /\
  (forall post_id env' req', method req' = POST ->
      dispatch (post_url post_id) env' req' st' =
      (redirect_url_for "login" [("error", VStr comment_login_message)], st')).
Proof.
  intros M st'. split; [|split; [|split; [|split]]]; try reflexivity.
  - unfold_route. destruct (method req); try reflexivity. contradiction.
  - intros post_id env' req' M'. unfold_route. unfold show_post, def1. simpl.
    now rewrite M'.
Qed.

(* ----------------------------------------------------------------- *)
(** *** Reading a post *)

Lemma names_user_found (d : DB) (ref : option Z) :
  names_user d ref = true ->
  exists author, User_by_id d ref = Some author /\ In author (Users d).
Proof.
  destruct ref as [k|]; [|discriminate]. unfold User_by_id, User_get. cbn [names_user].
  intros E. destruct (find _ _) as [a|] eqn:F.
  - exists a. split; [reflexivity|]. now apply find_some in F.
  - apply find_none_iff in F. congruence.
Qed.

(** X11: a [GET] of [/post/<id>], for an id the URL rule accepts, never
    changes store or session.  For an id no post has it ends in an
    [AttributeError], or in an [OverflowError] when the id is 2^63 or more
    and cannot be bound; for the id of a stored post whose authors are stored
    it renders the post page of a stored post with that id, with the name of
    its author and all comments. *)
Theorem show_post_get (post_id : Z) (env : Env) (req : Request) (st : State) :
  method req = GET ->
  0 <= post_id ->
  snd (dispatch (post_url post_id) env req st) = st /\
  ((forall p, In p (blog_posts (db st)) -> BlogPost.id p <> post_id) ->
     fst (dispatch (post_url post_id) env req st) =
     raise (if post_id <? 2 ^ 63 then AttributeError else OverflowError)) /\
  ((exists p, In p (blog_posts (db st)) /\ BlogPost.id p = post_id) ->
   authors_stored (db st) = true ->
     exists post author,
       In post (blog_posts (db st)) /\ BlogPost.id post = post_id /\
       In author (Users (db st)) /\ BlogPost.author_id post = Some (User.id author) /\
       fst (dispatch (post_url post_id) env req st) = post_page st post author).
Proof.
  intros M P. unfold_route. unfold show_post, def1, or_raise.
  cbn [String.eqb Ascii.eqb Bool.eqb]. rewrite M.
  split; [|split].
  - destruct (BlogPost_get (db st) post_id) as [e|[p|]]; try reflexivity.
    destruct (User_by_id (db st) (BlogPost.author_id p)); reflexivity.
  - intros Missing. rewrite (@BlogPost_get_missing _ _ Missing).
    rewrite (sqlite_integer_nonneg P). now destruct (post_id <? 2 ^ 63).
  - intros (p & I & <-) A. destruct (BlogPost_get_some _ _ I) as (q & G & Iq & E).
    rewrite G.
    unfold authors_stored in A. apply andb_true_iff in A as [_ A].
    rewrite forallb_forall in A. specialize (A q Iq).
    destruct (names_user_found _ _ A) as (author & U & Ia). rewrite U.
    exists q, author. repeat split; try assumption.
    unfold User_by_id, User_get in U. destruct (BlogPost.author_id q) as [k|]; [|discriminate].
    apply find_some in U as [_ K]. apply Z.eqb_eq in K. now subst k.
Qed.

(* ----------------------------------------------------------------- *)
(** *** Writing a post *)

Lemma fk_ok_in (u : User.t) (d : DB) :
  In u (Users d) -> fk_ok (map User.id (Users d)) (Some (User.id u)) = true.
Proof.
  intros I. unfold fk_ok. apply orb_true_iff. right. apply existsb_exists.
  exists (User.id u). split; [now apply in_map | apply Z.eqb_refl].
Qed.

(** X12: the administrator submits a valid post form on [/new-post].  If one
    of the four fields has no data, or another post has the title, the
    commit fails with an [IntegrityError] and nothing changes; otherwise the
    post is appended with the next key, the administrator as author and
    today's date, and the answer is the redirect to the index. *)
Theorem add_new_post_outcomes (env : Env) (req : Request) (st : State) (u : User.t) :
  current_user st = Authenticated u ->
  User.id u = 1 ->
  method req = POST ->
  CreatePostForm_validate req = true ->
  match field_data req "title", field_data req "subtitle",
        field_data req "body", field_data req "img_url" with
  | Some title, Some subtitle, Some body, Some img_url =>
      if existsb (fun p => String.eqb (BlogPost.title p) title) (blog_posts (db st))
      then dispatch new_post_url env req st = (raise IntegrityError, st)
      else dispatch new_post_url env req st =
           (redirect_url_for "get_all_posts" [],
            mkState (mkDB (Users (db st))
                          (blog_posts (db st) ++ [posted env st u title subtitle body img_url])
                          (comments (db st)))
                    (session st))
  | _, _, _, _ => dispatch new_post_url env req st = (raise IntegrityError, st)
  end.
Proof.
  intros A Adm M V. unfold_route.
  unfold add_new_post, login_required, admin_only, def0. rewrite A. cbn [is_authenticated].
  rewrite (proj2 (Z.eqb_eq _ _) Adm).
  unfold add_new_post_view, def0, validate_on_submit, is_submitted. rewrite M, V, A.
  cbn [andb]. unfold or_raise, insert_post, bindable.
  replace (sqlite_integer (User.id u)) with true by (now rewrite Adm). cbn [negb].
  destruct (field_data req "title") as [title|]; [|reflexivity].
  destruct (field_data req "subtitle") as [subtitle|]; [|reflexivity].
  destruct (field_data req "body") as [body|]; [|reflexivity].
  destruct (field_data req "img_url") as [img_url|]; [|reflexivity].
  destruct (existsb _ _); [reflexivity|].
  apply current_user_inv in A as [_ I]. rewrite (fk_ok_in _ _ I). reflexivity.
Qed.

(* ----------------------------------------------------------------- *)
(** *** Passwords and logins *)

Lemma salt_choice_in_SALT_CHARS (r : nat) :
  In (salt_choice r) (list_ascii_of_string SALT_CHARS).
Proof.
  assert (A : forall k, (k < 62)%nat ->
            In (match String.get k SALT_CHARS with Some a => a | None => "a"%char end)
               (list_ascii_of_string SALT_CHARS)).
  { intros k L. do 62 (destruct k as [|k]; [cbn; tauto|]). lia. }
  apply A, Nat.mod_upper_bound. discriminate.
Qed.

Lemma gen_salt_chars (r : nat -> nat) (n : nat) :
  String.length (gen_salt r n) = n /\
  forall a, In a (list_ascii_of_string (gen_salt r n)) ->
            In a (list_ascii_of_string SALT_CHARS).
Proof.
  unfold gen_salt. rewrite <- (length_seq n 0) at 2.
  induction (seq 0 n) as [|k ks [IHl IHc]]; cbn [map string_of_list_ascii String.length
                                                   list_ascii_of_string List.length].
  - split; [reflexivity | intros a []].
  - split; [now rewrite IHl|]. intros a [<-|I]; [apply salt_choice_in_SALT_CHARS | auto].
Qed.

(** X13: hashing a password and checking it.  Whatever the random source,
    [generate_password_hash(password, method='pbkdf2:sha256', salt_length=8)]
    gives a text [method$salt$digest] whose salt is 8 characters of
    [SALT_CHARS], and [check_password_hash] accepts the same password on
    that text. *)
Theorem password_hash_round_trip (r : nat -> nat) (password : string) :
  exists salt,
    generate_password_hash r password "pbkdf2:sha256" 8 = Some (stored_hash salt password) /\
    String.length salt = 8%nat /\
    (forall a, In a (list_ascii_of_string salt) -> In a (list_ascii_of_string SALT_CHARS)) /\
    check_password_hash (stored_hash salt password) password = Some true.
Proof.
  exists (gen_salt r 8). destruct (gen_salt_chars r 8) as [L C].
  split; [apply generate_password_hash_pbkdf2|].
  split; [exact L|]. split; [exact C|].
  now rewrite check_stored_hash, String.eqb_refl.
Qed.

(** X14: a login is accepted only for a stored user with the submitted email
    whose stored text verifies the submitted password; it leaves the store
    alone and the session then names that user. *)
Theorem accepted_login_names_a_verified_user
    (env : Env) (req : Request) (st st' : State) :
  dispatch login_url env req st = (redirect_url_for "get_all_posts" [], st') ->
  exists user email password,
    method req = POST /\
    multidict_get "email" (form req) = Some email /\
    multidict_get "password" (form req) = Some password /\
    In user (Users (db st)) /\ User.email user = email /\
    check_password_hash (User.password user) password = Some true /\
    st' = mkState (db st) (Some (User.id user)).
Proof.
  unfold_route. unfold login, def0, getitem, or_raise.
  destruct (method req); try discriminate.
  - destruct (multidict_get "error" (args req)); discriminate.
  - destruct (multidict_get "email" (form req)) as [email|]; [|discriminate].
    destruct (multidict_get "password" (form req)) as [password|]; [|discriminate].
    destruct (User_by_email (db st) email) as [user|] eqn:F; [|discriminate].
    destruct (check_password_hash _ _) as [[|]|] eqn:C; try discriminate.
    intros [= <-]. exists user, email, password.
    unfold User_by_email in F. apply find_some in F as [I E]. apply String.eqb_eq in E.
    repeat split; auto.
Qed.

(** X15: a form that lacks a field.  A [POST] to [/register] or [/login]
    raises the missing-key error for the first field, in the order the view
    reads them, that the form does not hold, and changes nothing. *)
Theorem missing_form_field_is_refused
    (env : Env) (req : Request) (st : State) (key : string) :
  method req = POST ->
  (first_missing ["name"; "password"; "email"] (form req) = Some key ->
     dispatch register_url env req st = (raise (BadRequestKeyError key), st)) /\
  (first_missing ["email"; "password"] (form req) = Some key ->
     dispatch login_url env req st = (raise (BadRequestKeyError key), st)).
Proof.
  intros M. unfold_route. unfold register, login, def0, getitem, or_raise, first_missing.
  rewrite M. cbn [find].
  destruct (multidict_get "name" (form req)), (multidict_get "password" (form req)),
           (multidict_get "email" (form req)); split; intros [= <-]; reflexivity.
Qed.

(* ----------------------------------------------------------------- *)
(** *** Who is the administrator *)

(** X16: with dense keys, the user that registers gets the key one above the
    number of stored users and is logged in.  So the user that registers
    into the empty store is user 1 and reaches the view of [/new-post],
    while a user that registers later is answered [403] there. *)
Theorem only_the_first_user_is_administrator
    (env : Env) (req : Request) (st : State) (name password email : string) :
  keys_dense (db st) ->
  method req = POST ->
  multidict_get "name" (form req) = Some name ->
  multidict_get "password" (form req) = Some password ->
  multidict_get "email" (form req) = Some email ->
  (forall u, In u (Users (db st)) -> User.email u <> email) ->
  let st' := snd (dispatch register_url env req st) in
  let new_user := registered env st name password email in
  current_user st' = Authenticated new_user /\
  User.id new_user = Z.of_nat (S (List.length (Users (db st)))) /\
  (Users (db st) = [] ->
     forall env' req', dispatch new_post_url env' req' st' = add_new_post_view [] env' req' st') /\
  (Users (db st) <> [] ->
     forall env' req', dispatch new_post_url env' req' st' = (raise (HTTPException 403), st')).
Proof.
  intros (Du & _) M Hn Hp He Fresh st' new_user.
  assert (R : st' = after_register env st name password email).
  { unfold st'. now rewrite (register_fresh env _ _ M Hn Hp He Fresh). }
  assert (K : User.id new_user = Z.of_nat (S (List.length (Users (db st))))).
  { unfold new_user, registered. cbn [User.id]. now rewrite Du, next_id_keys_upto. }
  assert (C : current_user st' = Authenticated new_user).
  { rewrite R. unfold current_user, after_register, load_user. cbn [session db].
    fold new_user. rewrite (User_get_appended (db st) new_user); [reflexivity|].
    apply next_id_fresh. }
  split; [exact C|]. split; [exact K|].
  split; intros E env' req'; unfold_route;
    unfold add_new_post, login_required, admin_only, def0; rewrite C; cbn [is_authenticated].
  - rewrite K, E. reflexivity.
  - destruct (Users (db st)) as [|v vs]; [contradiction|].
    replace (User.id new_user =? 1) with false; [reflexivity|].
    symmetry. apply Z.eqb_neq. rewrite K. cbn [List.length]. lia.
Qed.

(* ----------------------------------------------------------------- *)
(** *** A new post, read back *)

Lemma BlogPost_get_appended (d : DB) (p : BlogPost.t) :
  BlogPost.id p = next_id (map BlogPost.id (blog_posts d)) ->
  BlogPost_get (mkDB (Users d) (blog_posts d ++ [p]) (comments d)) (BlogPost.id p)
  = inr (Some p).
Proof.
  intros K. unfold BlogPost_get. cbn [blog_posts]. rewrite find_app_none.
  - cbn [find]. now rewrite Z.eqb_refl.
  - apply find_none_iff, not_true_is_false. intros X.
    apply existsb_exists in X as (q & I & E). apply Z.eqb_eq in E.
    apply (next_id_fresh (map BlogPost.id (blog_posts d))).
    rewrite <- K, <- E. now apply in_map.
Qed.

(** X17: a post the administrator has just created is the last one on the
    index, and a [GET] of [/post/<its key>] renders it with the
    administrator's name. *)
Theorem created_post_can_be_read
    (env env' : Env) (req req' : Request) (st : State) (u : User.t)
    (title subtitle body img_url : string) :
  current_user st = Authenticated u ->
  User.id u = 1 ->
  method req = POST ->
  CreatePostForm_validate req = true ->
  field_data req "title" = Some title ->
  field_data req "subtitle" = Some subtitle ->
  field_data req "body" = Some body ->
  field_data req "img_url" = Some img_url ->
  (forall p, In p (blog_posts (db st)) -> BlogPost.title p <> title) ->
  method req' = GET ->
  let st' := snd (dispatch new_post_url env req st) in
  let post := posted env st u title subtitle body img_url in
  blog_posts (db st') = (blog_posts (db st) ++ [post])%list /\
  dispatch index env' req' st' =
    (render_template "index.html"
       [("all_posts", VPosts (blog_posts (db st) ++ [post])); logged_in st';
        ("all_users", VUsers (Users (db st)))], st') /\
  dispatch (post_url (BlogPost.id post)) env' req' st' = (post_page st' post u, st').
Proof.
  intros A Adm M V Ht Hs Hb Hi Fresh M' st' post.
  assert (R : st' = mkState (mkDB (Users (db st)) (blog_posts (db st) ++ [post])
                                  (comments (db st))) (session st)).
  { unfold st'. unfold_route.
    unfold add_new_post, login_required, admin_only, def0. rewrite A. cbn [is_authenticated].
    rewrite (proj2 (Z.eqb_eq _ _) Adm).
    unfold add_new_post_view, def0, validate_on_submit, is_submitted. rewrite M, V, A.
    cbn [andb]. rewrite Ht, Hs, Hb, Hi. unfold or_raise, insert_post, bindable.
    replace (sqlite_integer (User.id u)) with true by (now rewrite Adm). cbn [negb].
    replace (existsb (fun p => String.eqb (BlogPost.title p) title) (blog_posts (db st)))
      with false.
    - pose proof A as A'. apply current_user_inv in A' as [_ I].
      now rewrite (fk_ok_in _ _ I).
    - symmetry. apply not_true_is_false. intros X.
      apply existsb_exists in X as (p & I & E). apply String.eqb_eq in E.
      exact (Fresh p I E). }
  assert (U : User_get (db st) (User.id u) = Some u).
  { unfold current_user, load_user in A. destruct (session st) as [uid|]; [|discriminate].
    destruct (User_get (db st) uid) as [v|] eqn:G; [|discriminate].
    injection A as ->. unfold User_get in G. pose proof G as G'.
    apply find_some in G' as [_ E]. apply Z.eqb_eq in E. now rewrite E. }
  rewrite R. split; [reflexivity|]. split.
  - unfold_route. rewrite M'. reflexivity.
  - unfold_route. unfold show_post, def1. cbn [String.eqb Ascii.eqb Bool.eqb].
    rewrite M'. cbn [db].
    rewrite (BlogPost_get_appended (db st) post) by reflexivity.
    unfold or_raise, User_by_id. cbn [posted post BlogPost.author_id].
    unfold User_get in *. cbn [Users]. now rewrite U.
Qed.

(* ----------------------------------------------------------------- *)
(** *** Views that return nothing *)

(** X18: three views have a path that returns no response, which Flask
    turns into a [TypeError]: [register], [login] and [show_post] on a [HEAD]
    request, and [show_post] when a logged-in user posts a comment form that
    does not validate.  Nothing is changed on these paths. *)
Theorem views_can_return_nothing (post_id : Z) (env : Env) (req : Request) (st : State) :
  (method req = HEAD ->
     dispatch register_url env req st = (raise TypeError, st) /\
     dispatch login_url env req st = (raise TypeError, st) /\
     dispatch (post_url post_id) env req st = (raise TypeError, st)) /\
  (method req = POST ->
   is_active (current_user st) = true ->
   CommentForm_validate req = false ->
     dispatch (post_url post_id) env req st = (raise TypeError, st)).
Proof.
  split.
  - intros M. unfold_route. unfold register, login, show_post, def0, def1.
    cbn [String.eqb Ascii.eqb Bool.eqb]. now rewrite M.
  - intros M A V. unfold_route.
    unfold show_post, def1, validate_on_submit, is_submitted.
    cbn [String.eqb Ascii.eqb Bool.eqb]. rewrite M, V.
    destruct (current_user st); [reflexivity | discriminate].
Qed.

(* ----------------------------------------------------------------- *)
(** *** Deleting a post and its comments *)

Lemma on_post_orphan (post_id : Z) (c : Comment.t) : on_post post_id (orphan post_id c) = false.
Proof.
  unfold orphan, on_post. destruct (Comment.post_id c) as [k|] eqn:P; [|now rewrite P].
  destruct (k =? post_id) eqn:E; [reflexivity|]. now rewrite P, E.
Qed.

Lemma orphan_other (post_id : Z) (c : Comment.t) :
  on_post post_id c = false -> orphan post_id c = c.
Proof.
  unfold orphan, on_post. destruct (Comment.post_id c) as [k|]; [|reflexivity].
  now intros ->.
Qed.

(** X19: the function [delete_post] on its own, as written under its
    decorators.  For a key no post has, [db.session.delete(None)] raises, or
    the lookup itself raises [OverflowError] when the key cannot be bound,
    and nothing changes.  For the key of a stored post, users and session
    are untouched and no comment row is removed: the comments of other posts
    stay as they are, and the comments of the deleted post stay stored with
    an empty [post_id], so the post's comment count becomes zero. *)
Theorem delete_post_orphans_its_comments
    (post_id : Z) (env : Env) (req : Request) (st : State) :
  ((forall p, In p (blog_posts (db st)) -> BlogPost.id p <> post_id) ->
     delete_post_view [("post_id", post_id)] env req st =
     (raise (if sqlite_integer post_id then UnmappedInstanceError else OverflowError), st)) /\
  ((exists p, In p (blog_posts (db st)) /\ BlogPost.id p = post_id) ->
     let st' := snd (delete_post_view [("post_id", post_id)] env req st) in
     Users (db st') = Users (db st) /\
     session st' = session st /\
     comments (db st') = map (orphan post_id) (comments (db st)) /\
     List.length (comments (db st')) = List.length (comments (db st)) /\
     comment_count post_id (db st') = 0%nat /\
     (forall c, In c (comments (db st)) -> on_post post_id c = false ->
                In c (comments (db st'))) /\
     (forall c, In c (comments (db st)) -> on_post post_id c = true ->
                In (Comment.mk (Comment.id c) (Comment.author_id c) (Comment.text c) None)
                   (comments (db st')))).
Proof.
  unfold delete_post_view, def1, or_raise. cbn [String.eqb Ascii.eqb Bool.eqb]. split.
  - intros Missing. rewrite (@BlogPost_get_missing _ _ Missing).
    now destruct (sqlite_integer post_id).
  - intros (p & I & <-). destruct (BlogPost_get_some _ _ I) as (q & G & _ & E).
    rewrite G. unfold delete_row. cbn [snd db session Users comments]. rewrite E.
    split; [reflexivity|]. split; [reflexivity|]. split; [reflexivity|].
    split; [apply length_map|]. split; [|split].
    + unfold comment_count. cbn [comments].
      induction (comments (db st)) as [|c cs IH]; [reflexivity|].
      cbn [map filter]. now rewrite on_post_orphan.
    + intros c Ic O. apply in_map_iff. exists c. split; [now apply orphan_other | exact Ic].
    + intros c Ic O. apply in_map_iff. exists c. split; [|exact Ic].
      unfold orphan. unfold on_post in O.
      destruct (Comment.post_id c) as [k|]; [|discriminate]. now rewrite O.
Qed.

(* ----------------------------------------------------------------- *)
(** *** Asking for a post to be deleted *)


(** X20: a comment on an id that cannot be bound.  When a logged-in user
    posts a valid comment form to [/post/<id>] with an id of 2^63 or more,
    the commit raises [OverflowError] and nothing is stored. *)
Theorem comment_on_unbindable_post
    (post_id : Z) (env : Env) (req : Request) (st : State) (u : User.t) :
  method req = POST ->
  current_user st = Authenticated u ->
  CommentForm_validate req = true ->
  2 ^ 63 <= post_id ->
  dispatch (post_url post_id) env req st = (raise OverflowError, st).
Proof.
  intros M A V B. unfold_route. unfold show_post, def1, validate_on_submit, is_submitted.
  cbn [String.eqb Ascii.eqb Bool.eqb]. rewrite M, A, V. cbn [andb].
  unfold or_raise, insert_comment, bindable.
  replace (sqlite_integer post_id) with false; [now rewrite andb_false_r|].
  symmetry. unfold sqlite_integer. apply andb_false_iff. right. apply Z.ltb_ge. exact B.
Qed.

End Blog.

(* ================================================================= *)
(** ** The properties on the sample configuration *)

(** The application with the sample library functions, SQLite's default
    (foreign keys unchecked) or the pragma turned on. *)
Abbreviation app fk :=
  (dispatch sample_pbkdf2_hex sample_hmac_hex sample_hash_hex sample_iterations fk
            always_valid always_valid no_author_field).

Abbreviation app_run fk :=
  (run sample_pbkdf2_hex sample_hmac_hex sample_hash_hex sample_iterations fk
       always_valid always_valid no_author_field).

Abbreviation signed_up :=
  (snd (app false register_url sample_env (sign_up "A" "pw1" "a@x.com") no_state)).

(** C4: with SQLite's default setting, user 1 registers and comments on
    [/post/7] while no post is stored: the comment row is stored with
    [post_id = 7], a reference that names no post. *)
Theorem comment_on_missing_post_dangles
    (pbkdf2_hex : string -> string -> string -> N -> string)
    (hmac_hex : string -> string -> string -> string)
    (hash_hex : string -> string -> string) (iterations : N)
    (post_form : Request -> bool) (author : Request -> Exn + option Z) :
  let w := run pbkdf2_hex hmac_hex hash_hex iterations false post_form always_valid author
               initial
               [mkOp 0 register_url sample_env (sign_up "A" "pw1" "a@x.com");
                mkOp 0 (post_url 7) sample_env (say "hello")] in
  comments (store w) = [Comment.mk 1 (Some 1) "hello" (Some 7)] /\
  blog_posts (store w) = [] /\
  referential_integrity (store w) = false.
Proof. repeat split. Qed.

Lemma register_twice :
  (exists new_user,
      app false register_url sample_env (sign_up "A" "pw1" "a@x.com") no_state =
      (redirect_url_for "get_all_posts" [("logged_in", VBool true)],
       mkState (mkDB [new_user] [] []) (Some 1)) /\ User.id new_user = 1) /\
  app false register_url sample_env (sign_up "B" "pw2" "a@x.com") signed_up =
  (login_form_with already_signed_up_message signed_up, signed_up).
Proof.
  split.
  - destruct (proj2 (@register_rejects_duplicate_email
                       sample_pbkdf2_hex sample_hmac_hex sample_hash_hex sample_iterations
                       false always_valid always_valid no_author_field
                       sample_env (sign_up "A" "pw1" "a@x.com") no_state "A" "pw1" "a@x.com"
                       eq_refl eq_refl eq_refl eq_refl)
                    (fun u (F : In u []) => match F with end))
      as (new_user & E & -> & _).
    eexists. split; [exact E | reflexivity].
  - apply (proj1 (@register_rejects_duplicate_email
                    sample_pbkdf2_hex sample_hmac_hex sample_hash_hex sample_iterations
                    false always_valid always_valid no_author_field
                    sample_env (sign_up "B" "pw2" "a@x.com") signed_up "B" "pw2" "a@x.com"
                    eq_refl eq_refl eq_refl eq_refl)).
    eexists. split; [left; reflexivity | reflexivity].
Defined.

Lemma login_after_sign_up :
  app false login_url sample_env (sign_in "a@x.com" "pw1") (mkState (db signed_up) None) =
    (redirect_url_for "get_all_posts" [], mkState (db signed_up) (Some 1)) /\
  app false login_url sample_env (sign_in "a@x.com" "pw2") (mkState (db signed_up) None) =
    (login_form_with wrong_password_message (mkState (db signed_up) None),
     mkState (db signed_up) None).
Proof.
  split.
  - apply (@login_after_register
             sample_pbkdf2_hex sample_hmac_hex sample_hash_hex sample_iterations
             false always_valid always_valid no_author_field
             sample_env sample_env (sign_up "A" "pw1" "a@x.com") (sign_in "a@x.com" "pw1")
             no_state "A" "pw1" "a@x.com" "pw1" None
             eq_refl eq_refl eq_refl eq_refl
             (fun u (F : In u []) => match F with end) eq_refl eq_refl eq_refl).
    reflexivity.
  - apply (@login_after_register
             sample_pbkdf2_hex sample_hmac_hex sample_hash_hex sample_iterations
             false always_valid always_valid no_author_field
             sample_env sample_env (sign_up "A" "pw1" "a@x.com") (sign_in "a@x.com" "pw2")
             no_state "A" "pw1" "a@x.com" "pw2" None
             eq_refl eq_refl eq_refl eq_refl
             (fun u (F : In u []) => match F with end) eq_refl eq_refl eq_refl).
    discriminate.
Defined.

(** A digest of 64 hexadecimal digits, as [hashlib] prints it. *)
Example a_hex_digest :
  is_hex_digest "e3b0c44298fc1c149afbf4c8996fb92427ae41e4649b934ca495991b7852b855" = true.
Proof. reflexivity. Qed.

(** C3, as the specification words it, fails: whatever function computes the
    digests and whatever the iteration count, as long as the digests are
    texts of 64 hexadecimal digits, some password other than the registered
    one is accepted. *)
Lemma no_digest_refuses_every_other_password :
  ~ exists (pbkdf2_hex : string -> string -> string -> N -> string)
           (hmac_hex : string -> string -> string -> string)
           (hash_hex : string -> string -> string) (iterations : N) (fk : bool)
           (post_form comment_form : Request -> bool) (author : Request -> Exn + option Z),
      (forall p s, is_hex_digest (pbkdf2_hex "sha256" p s iterations) = true) /\
      every_other_password_is_refused pbkdf2_hex hmac_hex hash_hex iterations fk
                                      post_form comment_form author.
Proof.
  intros (pbkdf2_hex & hmac_hex & hash_hex & iterations & fk & f1 & f2 & f3 & Hex & Claim).
  exact (some_other_password_is_accepted Hex Claim).
Qed.

Lemma login_page_without_error_parameter :
  app false login_url sample_env visit no_state =
    (raise (BadRequestKeyError "error"), no_state) /\
  app false login_url sample_env (mkRequest GET [] [("error", "Please log in")]) no_state =
    (render_template "login.html"
       [("form", VForm "LoginForm"); ("error", VStr "Please log in"); logged_in no_state],
     no_state).
Proof.
  split.
  - exact (@login_get_reads_error_unconditionally
             sample_pbkdf2_hex sample_hmac_hex sample_hash_hex sample_iterations
             false always_valid always_valid no_author_field
             sample_env visit no_state eq_refl).
  - exact (@login_get_reads_error_unconditionally
             sample_pbkdf2_hex sample_hmac_hex sample_hash_hex sample_iterations
             false always_valid always_valid no_author_field
             sample_env (mkRequest GET [] [("error", "Please log in")]) no_state eq_refl).
Defined.

Lemma anonymous_comment_example :
  app false (post_url 3) sample_env (say "hello") (mkState (db signed_up) None) =
  (redirect_url_for "login" [("error", VStr comment_login_message)],
   mkState (db signed_up) None).
Proof.
  exact (@anonymous_comment_redirects_to_login
           sample_pbkdf2_hex sample_hmac_hex sample_hash_hex sample_iterations
           false always_valid always_valid no_author_field
           3 sample_env (say "hello") (mkState (db signed_up) None) eq_refl eq_refl).
Defined.

Lemma failed_logins_example :
  app false login_url sample_env (sign_in "b@x.com" "pw1") (mkState (db signed_up) None) =
    (login_form_with unknown_email_message (mkState (db signed_up) None),
     mkState (db signed_up) None) /\
  app false login_url sample_env (sign_in "a@x.com" "pw2") (mkState (db signed_up) None) =
    (login_form_with wrong_password_message (mkState (db signed_up) None),
     mkState (db signed_up) None).
Proof.
  split.
  - apply (@failed_login_causes_are_told_apart
             sample_pbkdf2_hex sample_hmac_hex sample_hash_hex sample_iterations
             false always_valid always_valid no_author_field
             sample_env (sign_in "b@x.com" "pw1") (mkState (db signed_up) None)
             "b@x.com" "pw1" eq_refl eq_refl eq_refl).
    reflexivity.
  - apply (proj1 (proj2 (@failed_login_causes_are_told_apart
             sample_pbkdf2_hex sample_hmac_hex sample_hash_hex sample_iterations
             false always_valid always_valid no_author_field
             sample_env (sign_in "a@x.com" "pw2") (mkState (db signed_up) None)
             "a@x.com" "pw2" eq_refl eq_refl eq_refl))
           (registered sample_pbkdf2_hex sample_iterations sample_env no_state
                       "A" "pw1" "a@x.com"));
      reflexivity.
Defined.

(** The store after user 1 has signed up and written one post. *)
Abbreviation one_post :=
  (snd (app false new_post_url sample_env
          (mkRequest POST [("title", "T"); ("subtitle", "S"); ("body", "B"); ("img_url", "u")] [])
          signed_up)).

Lemma comment_example :
  exists c,
    comments (db (snd (app false (post_url 1) sample_env (say "hello") one_post))) = [c] /\
    Comment.author_id c = Some 1 /\
    Comment.post_id c = Some 1 /\
    comment_count 1 (db (snd (app false (post_url 1) sample_env (say "hello") one_post))) = 1%nat.
Proof.
  destruct (@comment_submission_adds_one_comment
              sample_pbkdf2_hex sample_hmac_hex sample_hash_hex sample_iterations
              false always_valid always_valid no_author_field
              1 sample_env (say "hello") one_post
              (snd (app false (post_url 1) sample_env (say "hello") one_post))
              (registered sample_pbkdf2_hex sample_iterations sample_env no_state
                          "A" "pw1" "a@x.com")
              eq_refl eq_refl eq_refl)
    as (c & Hc & Ha & Hp & Hn & _).
  exists c. repeat split; assumption.
Defined.

Lemma authors_stored_example :
  authors_stored
    (store (app_run false initial
              [mkOp 0 register_url sample_env (sign_up "A" "pw1" "a@x.com");
               mkOp 0 (post_url 7) sample_env (say "hello")])) = true.
Proof.
  exact (@authors_stored_along_runs
           sample_pbkdf2_hex sample_hmac_hex sample_hash_hex sample_iterations
           false always_valid always_valid no_author_field _ initial eq_refl).
Defined.

Lemma integrity_example :
  referential_integrity
    (store (app_run true initial
              [mkOp 0 register_url sample_env (sign_up "A" "pw1" "a@x.com");
               mkOp 0 (post_url 7) sample_env (say "hello");
               mkOp 0 new_post_url sample_env
                 (mkRequest POST [("title", "T"); ("subtitle", "S"); ("body", "B");
                                  ("img_url", "u")] []);
               mkOp 0 (post_url 1) sample_env (say "hello")])) = true /\
  List.length
    (comments
       (store (app_run true initial
              [mkOp 0 register_url sample_env (sign_up "A" "pw1" "a@x.com");
               mkOp 0 (post_url 7) sample_env (say "hello");
               mkOp 0 new_post_url sample_env
                 (mkRequest POST [("title", "T"); ("subtitle", "S"); ("body", "B");
                                  ("img_url", "u")] []);
               mkOp 0 (post_url 1) sample_env (say "hello")]))) = 1%nat.
Proof.
  split.
  - exact (@integrity_along_runs_with_foreign_keys
             sample_pbkdf2_hex sample_hmac_hex sample_hash_hex sample_iterations
             true always_valid always_valid no_author_field _ initial eq_refl eq_refl).
  - reflexivity.
Defined.

(* ----------------------------------------------------------------- *)
(** *** Further properties on the sample configuration *)

Abbreviation new_post_form :=
  (mkRequest POST [("title", "T"); ("subtitle", "S"); ("body", "B"); ("img_url", "u")] []).

(** User A signs up, comments on a post that is not there, writes the first
    post and comments on it; then B signs up. *)
Abbreviation a_day :=
  [mkOp 0 register_url sample_env (sign_up "A" "pw1" "a@x.com");
   mkOp 0 (post_url 7) sample_env (say "hello");
   mkOp 0 new_post_url sample_env new_post_form;
   mkOp 0 (post_url 1) sample_env (say "hello again");
   mkOp 1 register_url sample_env (sign_up "B" "pw2" "b@x.com")].

Abbreviation user_a :=
  (registered sample_pbkdf2_hex sample_iterations sample_env no_state "A" "pw1" "a@x.com").

Lemma keys_dense_example :
  keys_dense (store (app_run false initial a_day)) /\
  List.length (comments (store (app_run false initial a_day))) = 2%nat.
Proof.
  split; [|reflexivity].
  apply (@keys_dense_along_runs sample_pbkdf2_hex sample_hmac_hex sample_hash_hex sample_iterations false
           always_valid always_valid no_author_field a_day initial).
  repeat split.
Defined.

Lemma columns_unique_example :
  columns_unique (store (app_run false initial a_day)) /\
  List.length (Users (store (app_run false initial a_day))) = 2%nat.
Proof.
  split; [|reflexivity].
  apply (@columns_unique_along_runs sample_pbkdf2_hex sample_hmac_hex sample_hash_hex sample_iterations false
           always_valid always_valid no_author_field a_day initial).
  split; constructor.
Defined.

Lemma cookies_valid_example :
  cookies (app_run false initial a_day) 1%nat = Some 2 /\
  is_authenticated
    (current_user (mkState (store (app_run false initial a_day)) (Some 2))) = true.
Proof.
  split; [reflexivity|].
  apply (proj2 (@cookies_valid_along_runs sample_pbkdf2_hex sample_hmac_hex sample_hash_hex sample_iterations false
           always_valid always_valid no_author_field a_day initial
                  (fun c uid (H : None = Some uid) =>
                     match H in _ = o return match o with Some _ => _ | None => True end
                     with eq_refl => I end))
               1%nat 2 eq_refl).
Defined.

Lemma only_post_requests_write_example :
  db (snd (app false logout_url sample_env visit signed_up)) = db signed_up /\
  session (snd (app false logout_url sample_env visit signed_up)) = None.
Proof.
  split; [|reflexivity].
  apply (@only_post_requests_write sample_pbkdf2_hex sample_hmac_hex sample_hash_hex sample_iterations false
           always_valid always_valid no_author_field logout_url sample_env visit signed_up).
  discriminate.
Defined.

Lemma logout_example :
  app false logout_url sample_env visit signed_up =
    (redirect_url_for "get_all_posts" [("logged_in", VBool false)], logout_user signed_up) /\
  app false new_post_url sample_env new_post_form (logout_user signed_up) =
    (raise (HTTPException 401), logout_user signed_up).
Proof.
  destruct (@logout_makes_the_client_anonymous sample_pbkdf2_hex sample_hmac_hex sample_hash_hex sample_iterations false
           always_valid always_valid no_author_field sample_env visit signed_up)
    as (L & _ & _ & N & _); [discriminate|].
  split; [exact L | apply N].
Defined.

Lemma show_post_get_example :
  fst (app false (post_url 9) sample_env visit one_post) = raise AttributeError /\
  fst (app false (post_url (2 ^ 63)) sample_env visit one_post) = raise OverflowError /\
  exists post author,
    BlogPost.id post = 1 /\ User.name author = "A" /\
    fst (app false (post_url 1) sample_env visit one_post) = post_page one_post post author.
Proof.
  split; [|split].
  - apply (@show_post_get sample_pbkdf2_hex sample_hmac_hex sample_hash_hex sample_iterations
             false always_valid always_valid no_author_field
             9 sample_env visit one_post eq_refl); [discriminate|].
    intros p [<-|[]]. discriminate.
  - apply (@show_post_get sample_pbkdf2_hex sample_hmac_hex sample_hash_hex sample_iterations
             false always_valid always_valid no_author_field
             (2 ^ 63) sample_env visit one_post eq_refl); [discriminate|].
    intros p [<-|[]]. discriminate.
  - assert (P : 0 <= 1) by discriminate.
    destruct (proj2 (proj2 (@show_post_get
                              sample_pbkdf2_hex sample_hmac_hex sample_hash_hex
                              sample_iterations false always_valid always_valid
                              no_author_field 1 sample_env visit one_post eq_refl P)))
      as (post & author & _ & K & Ia & _ & R).
    + eexists. split; [left; reflexivity | reflexivity].
    + reflexivity.
    + exists post, author. split; [exact K|]. split; [|exact R].
      destruct Ia as [<-|[]]. reflexivity.
Defined.

Lemma add_new_post_example :
  app false new_post_url sample_env new_post_form signed_up =
    (redirect_url_for "get_all_posts" [],
     mkState (mkDB (Users (db signed_up))
                   [posted sample_env signed_up user_a "T" "S" "B" "u"] [])
             (Some 1)) /\
  app false new_post_url sample_env new_post_form one_post = (raise IntegrityError, one_post).
Proof.
  split.
  - exact (@add_new_post_outcomes sample_pbkdf2_hex sample_hmac_hex sample_hash_hex sample_iterations false
           always_valid always_valid no_author_field sample_env new_post_form signed_up user_a
                     eq_refl eq_refl eq_refl eq_refl).
  - exact (@add_new_post_outcomes sample_pbkdf2_hex sample_hmac_hex sample_hash_hex sample_iterations false
           always_valid always_valid no_author_field sample_env new_post_form one_post user_a
                     eq_refl eq_refl eq_refl eq_refl).
Defined.

Lemma accepted_login_example :
  exists user,
    User.email user = "a@x.com" /\
    snd (app false login_url sample_env (sign_in "a@x.com" "pw1") (mkState (db signed_up) None))
    = mkState (db signed_up) (Some (User.id user)).
Proof.
  destruct (@accepted_login_names_a_verified_user sample_pbkdf2_hex sample_hmac_hex sample_hash_hex sample_iterations false
           always_valid always_valid no_author_field sample_env
              (sign_in "a@x.com" "pw1") (mkState (db signed_up) None)
              (snd (app false login_url sample_env (sign_in "a@x.com" "pw1")
                        (mkState (db signed_up) None)))
              eq_refl)
    as (user & email & password & _ & He & _ & _ & E & _ & S).
  exists user. split; [|exact S].
  rewrite E. now injection He as <-.
Defined.

Lemma missing_form_field_example :
  app false register_url sample_env (mkRequest POST [("name", "A"); ("email", "a@x.com")] [])
      no_state = (raise (BadRequestKeyError "password"), no_state) /\
  app false login_url sample_env (mkRequest POST [] []) no_state =
    (raise (BadRequestKeyError "email"), no_state).
Proof.
  split.
  - apply (@missing_form_field_is_refused sample_pbkdf2_hex sample_hmac_hex sample_hash_hex sample_iterations false
           always_valid always_valid no_author_field sample_env
             (mkRequest POST [("name", "A"); ("email", "a@x.com")] []) no_state "password"
             eq_refl).
    reflexivity.
  - apply (@missing_form_field_is_refused sample_pbkdf2_hex sample_hmac_hex sample_hash_hex sample_iterations false
           always_valid always_valid no_author_field sample_env
             (mkRequest POST [] []) no_state "email" eq_refl).
    reflexivity.
Defined.

Lemma second_user_is_not_administrator :
  current_user signed_up = Authenticated user_a /\ User.id user_a = 1 /\
  app false new_post_url sample_env new_post_form
      (snd (app false register_url sample_env (sign_up "B" "pw2" "b@x.com") signed_up)) =
    (raise (HTTPException 403),
     snd (app false register_url sample_env (sign_up "B" "pw2" "b@x.com") signed_up)).
Proof.
  destruct (@only_the_first_user_is_administrator sample_pbkdf2_hex sample_hmac_hex sample_hash_hex sample_iterations false
           always_valid always_valid no_author_field sample_env
              (sign_up "A" "pw1" "a@x.com") no_state "A" "pw1" "a@x.com")
    as (C & K & _ & _); try reflexivity; [repeat split | intros u [] |].
  split; [exact C|]. split; [exact K|].
  apply (@only_the_first_user_is_administrator sample_pbkdf2_hex sample_hmac_hex sample_hash_hex sample_iterations false
           always_valid always_valid no_author_field sample_env
           (sign_up "B" "pw2" "b@x.com") signed_up "B" "pw2" "b@x.com");
    try reflexivity; [repeat split | | discriminate].
  intros u [<-|[]]. discriminate.
Defined.

Lemma created_post_example :
  app false (post_url 1) sample_env visit one_post =
    (post_page one_post (posted sample_env signed_up user_a "T" "S" "B" "u") user_a, one_post).
Proof.
  apply (@created_post_can_be_read sample_pbkdf2_hex sample_hmac_hex sample_hash_hex sample_iterations false
           always_valid always_valid no_author_field sample_env sample_env new_post_form visit
           signed_up user_a "T" "S" "B" "u"); try reflexivity.
  intros p [].
Defined.

(** The store after the first post has got a comment. *)
Abbreviation commented :=
  (snd (app false (post_url 1) sample_env (say "hello") one_post)).

Lemma delete_post_example :
  comments (db commented) = [Comment.mk 1 (Some 1) "hello" (Some 1)] /\
  comments (db (snd (delete_post_view [("post_id", 1)] sample_env visit commented))) =
    [Comment.mk 1 (Some 1) "hello" None] /\
  delete_post_view [("post_id", 5)] sample_env visit commented =
    (raise UnmappedInstanceError, commented) /\
  delete_post_view [("post_id", 2 ^ 63)] sample_env visit commented =
    (raise OverflowError, commented).
Proof.
  split; [reflexivity|].
  destruct (@delete_post_orphans_its_comments 1 sample_env visit commented) as [_ D].
  destruct (@delete_post_orphans_its_comments 5 sample_env visit commented) as [M _].
  destruct (@delete_post_orphans_its_comments (2 ^ 63) sample_env visit commented) as [O _].
  split; [|split].
  - destruct D as (_ & _ & C & _).
    + eexists. split; [left; reflexivity | reflexivity].
    + rewrite C. reflexivity.
  - apply M. intros p [<-|[]]. discriminate.
  - apply O. intros p [<-|[]]. discriminate.
Defined.

Lemma comment_on_unbindable_post_example :
  app false (post_url (2 ^ 63)) sample_env (say "hello") signed_up =
    (raise OverflowError, signed_up) /\
  comments (db (snd (app false (post_url (2 ^ 63 - 1)) sample_env (say "hello") signed_up))) =
    [Comment.mk 1 (Some 1) "hello" (Some (2 ^ 63 - 1))].
Proof.
  split; [|reflexivity].
  apply (@comment_on_unbindable_post
           sample_pbkdf2_hex sample_hmac_hex sample_hash_hex sample_iterations
           false always_valid always_valid no_author_field
           (2 ^ 63) sample_env (say "hello") signed_up user_a eq_refl eq_refl eq_refl).
  discriminate.
Defined.
